(** * Conversational-Analyst: the data tools and their MCP wrappers

    A shallow embedding of [tools_core.py] (the thirteen data tools that
    share the process-wide [STATE] dictionary) and of [server.py] (the
    plain wrappers that expose them), followed by the properties of the
    result contract, of the error handling and of the state discipline.

    pandas, plotly and pathlib are outside the repository.  Their calls
    are taken from an environment record [Env]: every call either
    returns a value or raises a Python [Exception] (class name and
    [str(e)]), and equal calls are answered equally.  What the tools do
    around those calls (the [df is None] guard, the extent of each
    [try]/[except], the writes to [STATE], the shape of the returned
    dictionaries) is modelled as written; so are column lookup
    [df[c]], [value_counts] and [sort_index] on integers and the cast
    [astype(int)], which [time_trend] relies on, and the binary64
    arithmetic of the z-scores of [outliers]. *)

From Stdlib Require Import ZArith String Ascii List Bool Lia.
From Stdlib Require Import Sorting.Sorted Sorting.Permutation.
From Stdlib Require Import DecimalString.
From Stdlib Require Import Floats.
Import ListNotations.

Set Warnings "-register-all".
Local Open Scope string_scope.
Local Open Scope Z_scope.

(** ** Python values *)

(** The values the tools receive and put into their results.  A pandas
    [Period] appears as a dictionary key in [time_trend]; it is ordered
    by its ordinal.  A dictionary is an association list in insertion
    order. *)
Inductive value : Type :=
| VNone
| VBool (b : bool)
| VInt (z : Z)
| VFloat (f : float)
| VStr (s : string)
| VPeriod (freq : string) (ordinal : Z)
| VList (l : list value)
| VDict (d : list (value * value)).

(** A returned dictionary [{"ok": ..., ...}]: string keys, in the order
    the literal lists them. *)
Definition Result : Type := list (string * value).

Fixpoint lookup (k : string) (d : Result) : option value :=
  match d with
  | [] => None
  | (k', v) :: d' => if String.eqb k k' then Some v else lookup k d'
  end.

(** [d[k] = v] on an insertion-ordered dictionary: an existing key
    keeps its position and takes the new value, a new key goes last. *)
Fixpoint setitem (d : Result) (k : string) (v : value) : Result :=
  match d with
  | [] => [(k, v)]
  | (k', v') :: d' =>
      if String.eqb k k' then (k', v) :: d' else (k', v') :: setitem d' k v
  end.

(** A dictionary with string keys as a Python value. *)
Definition str_dict (d : Result) : value :=
  VDict (map (fun kv => (VStr (fst kv), snd kv)) d).

(** [str(n)] of an integer, as an f-string prints it. *)
Definition str_int (n : Z) : string := NilZero.string_of_int (Z.to_int n).

(** ** Exceptions and outcomes *)

(** An instance of [Exception]: [type(e).__name__] and [str(e)]. *)
Record exn : Type := Exn { cls : string; msg : string }.

Inductive outcome (A : Type) : Type :=
| Ret (a : A)
| Raise (e : exn).
Arguments Ret {A} a.
Arguments Raise {A} e.

(** ** Tables *)

(** A column with its dtype.  Missing cells of object and datetime
    columns are [None]; integer and boolean columns have none, and a
    missing cell of a float column is a NaN.  An integer column is
    [int64], or [uint64] when [read_csv] met a value of [2^63] or more
    in it. *)
Inductive Series : Type :=
| SInt (l : list Z)
| SFloat (l : list float)
| SBool (l : list bool)
| SObject (l : list (option string))
| SDatetime (l : list (option Z)).

(** A DataFrame: the length of its index and its named columns. *)
Record DataFrame : Type := Frame {
  nrows : Z;
  columns : list (string * Series)
}.

(** [len(df)], [df.shape[1]] and [list(df.columns)]. *)
Definition len (df : DataFrame) : Z := nrows df.
Definition ncols (df : DataFrame) : Z := Z.of_nat (List.length (columns df)).
Definition column_names (df : DataFrame) : list string := map fst (columns df).

Fixpoint find_column (c : string) (cols : list (string * Series)) : option Series :=
  match cols with
  | [] => None
  | (c', s) :: cols' => if String.eqb c c' then Some s else find_column c cols'
  end.

(** [s.dropna()] on the cells of an object or datetime column. *)
Fixpoint dropna {A : Type} (l : list (option A)) : list A :=
  match l with
  | [] => []
  | Some a :: l' => a :: dropna l'
  | None :: l' => dropna l'
  end.

(** ** Counting and ordering ([value_counts], [sort_index]) *)

(** One more occurrence of [k] in a tally kept in first-seen order. *)
Fixpoint bump (k : Z) (t : list (Z * Z)) : list (Z * Z) :=
  match t with
  | [] => [(k, 1)]
  | (k', n) :: t' => if Z.eqb k k' then (k', n + 1) :: t' else (k', n) :: bump k t'
  end.

Definition tally (l : list Z) : list (Z * Z) :=
  fold_left (fun t k => bump k t) l [].

(** Stable insertion sort of index/count rows under a boolean order. *)
Fixpoint insert_row (leb : Z * Z -> Z * Z -> bool) (r : Z * Z) (t : list (Z * Z))
  : list (Z * Z) :=
  match t with
  | [] => [r]
  | r' :: t' => if leb r r' then r :: r' :: t' else r' :: insert_row leb r t'
  end.

Definition sort_rows (leb : Z * Z -> Z * Z -> bool) (t : list (Z * Z)) : list (Z * Z) :=
  fold_right (insert_row leb) [] t.

(** [Series.value_counts()]: one row per distinct value, the most
    frequent first. *)
Definition value_counts (l : list Z) : list (Z * Z) :=
  sort_rows (fun a b => Z.leb (snd b) (snd a)) (tally l).

(** [Series.sort_index()]: rows in ascending order of their index. *)
Definition sort_index (t : list (Z * Z)) : list (Z * Z) :=
  sort_rows (fun a b => Z.leb (fst a) (fst b)) t.

(** The values of an [int64] column. *)
Definition is_int64 (z : Z) : Prop := - 2 ^ 63 <= z < 2 ^ 63.

(** [astype(int)]: the cast to [int64].  A value of an [int64] column
    is kept; a value of a [uint64] column from [2^63] on wraps around. *)
Definition astype_int (z : Z) : Z := (z + 2 ^ 63) mod 2 ^ 64 - 2 ^ 63.

(** ** Double-precision cells ([outliers]) *)

(** numpy's conversion of an integer to [float64]: the nearest double,
    ties to even. *)
Definition float_of_int (z : Z) : float :=
  SF2Prim (binary_normalize prec emax z 0 false).

(** The cells of a column that [select_dtypes(include=np.number)]
    keeps, as the doubles the arithmetic of a frame works on; boolean,
    object and datetime columns are left out. *)
Definition numeric_cells (s : Series) : option (list float) :=
  match s with
  | SInt l => Some (map float_of_int l)
  | SFloat l => Some l
  | SBool _ | SObject _ | SDatetime _ => None
  end.

(** ** Charts *)

(** The figure a [plotly.express] call describes. *)
Inductive chart : Type :=
| Bar (x y : list value) (title : string)
| Scatter (df : DataFrame) (x y : string) (title : string)
| Histogram (df : DataFrame) (x : string) (nbins : Z) (title : string)
| Line (x y : list value) (xlabel : string) (title : string).

(** ** The environment: pandas, plotly and the file system *)

Record Env : Type := {
  (** [repr(s)] of a string: the text of [str(KeyError(s))] *)
  repr : string -> string;
  (** [Path(p).exists()]; it raises when the file cannot be examined
      (a [PermissionError] on a directory that may not be searched) *)
  path_exists : string -> outcome bool;
  (** [Path(p).name], total on strings *)
  path_name : string -> string;
  (** [pd.read_csv(p)] *)
  read_csv : string -> outcome DataFrame;
  (** [df.describe().T.to_dict()], or with [include="all"] when the
      flag is false *)
  describe : DataFrame -> bool -> outcome value;
  (** [df.head(n).to_dict(orient="records")] *)
  head_records : DataFrame -> Z -> outcome value;
  (** [s.astype(str).value_counts(dropna=True).head(top_n).to_dict()] *)
  category_counts : Series -> Z -> outcome (list (value * value));
  (** [df.corr(numeric_only=True, method=m).to_dict()] without columns,
      [df[columns].corr(method=m).to_dict()] with them *)
  corr : DataFrame -> option (list string) -> string -> outcome value;
  (** [str(e)] of the [KeyError] of [df[labels]] when some label is not
      a column, from the column names and the labels *)
  not_in_index : list string -> list string -> string;
  (** [s.mean()] and [s.std(ddof=0)] of a numeric column, as the frame
      reductions [sub.mean()] and [sub.std(ddof=0)] compute them *)
  mean : Series -> float;
  std : Series -> float;
  (** [df.isna().mean()] filtered by [> threshold], sorted descending,
      [.to_dict()] *)
  missing_fractions : DataFrame -> float -> outcome value;
  (** [.dt.to_period(freq)] on the non-missing timestamps: the
      frequency the periods carry (["M"] for ["M"], ["Y-DEC"] for
      ["Y"]) and their ordinals *)
  to_period : string -> list Z -> outcome (string * list Z);
  (** [pd.to_numeric(s, errors="coerce").dropna().astype(int)] on a
      column that is not an integer column *)
  coerce_int : Series -> outcome (list Z);
  (** building the figure and [fig.show()] *)
  show : chart -> outcome unit
}.

(** [str(KeyError(c))] is the [repr] of the key. *)
Definition KeyError (env : Env) (c : string) : exn := Exn "KeyError" (repr env c).

(** [df[c]] for a column label. *)
Definition getitem (env : Env) (df : DataFrame) (c : string) : outcome Series :=
  match find_column c (columns df) with
  | Some s => Ret s
  | None => Raise (KeyError env c)
  end.

(** ** The world: STATE and what has been asked of the environment *)

(** The global [STATE] dictionary; its three keys are fixed. *)
Record STATE : Type := State {
  df : option DataFrame;
  name : option string;
  schema : option (list (string * list string))
}.

(** [STATE] as the module creates it. *)
Definition STATE0 : STATE := State None None None.

(** What a tool asks of the environment. *)
Inductive event : Type :=
| PathExists (p : string)
| ReadCsv (p : string)
| Pandas (what : string)
| Plot (c : chart).

(** [STATE] and the calls made into the environment so far, oldest
    first. *)
Record World : Type := Mk {
  state : STATE;
  trace : list event
}.

(** A fresh process. *)
Definition World0 : World := Mk STATE0 [].

(** ** A state-and-exception monad

    A write to [STATE] made before an exception is raised stays made,
    so the world is returned on both outcomes. *)
Definition M (A : Type) : Type := World -> outcome A * World.

Definition ret {A} (a : A) : M A := fun w => (Ret a, w).

Definition raise {A} (e : exn) : M A := fun w => (Raise e, w).

Definition bind {A B} (m : M A) (k : A -> M B) : M B :=
  fun w =>
    match m w with
    | (Ret a, w') => k a w'
    | (Raise e, w') => (Raise e, w')
    end.

(** [try: m  except Exception as e: h e]. *)
Definition try_except {A} (m : M A) (h : exn -> M A) : M A :=
  fun w =>
    match m w with
    | (Ret a, w') => (Ret a, w')
    | (Raise e, w') => h e w'
    end.

Declare Scope py_scope.
Delimit Scope py_scope with py.
Notation "x <- m ;; k" := (bind m (fun x => k))
  (at level 61, m at next level, right associativity) : py_scope.
Notation "m ;; k" := (bind m (fun _ => k))
  (at level 61, right associativity) : py_scope.
Local Open Scope py_scope.

(** A call into the environment: recorded, then its outcome. *)
Definition call {A} (ev : event) (r : outcome A) : M A :=
  fun w => (r, Mk (state w) (trace w ++ [ev])).

(** An outcome computed inside the program ([df[c]]). *)
Definition of_outcome {A} (r : outcome A) : M A := fun w => (r, w).

Definition read_STATE : M STATE := fun w => (Ret (state w), w).

Definition write_df (d : DataFrame) : M unit :=
  fun w => (Ret tt, Mk (State (Some d) (name (state w)) (schema (state w))) (trace w)).

Definition write_name (n : string) : M unit :=
  fun w => (Ret tt, Mk (State (df (state w)) (Some n) (schema (state w))) (trace w)).

Definition write_schema (s : list (string * list string)) : M unit :=
  fun w => (Ret tt, Mk (State (df (state w)) (name (state w)) (Some s)) (trace w)).

(** ** tools_core.py *)

Module tools_core.
Section Tools.

Variable env : Env.

(** The sentinel every table-reading tool returns when [STATE["df"]]
    is [None]. *)
Definition no_dataset_loaded : Result :=
  [("ok", VBool false); ("error", VStr "no_dataset_loaded")].

(** [{"ok": False, "error": s}]. *)
Definition failure (s : string) : Result :=
  [("ok", VBool false); ("error", VStr s)].

(** *** Data I/O *)

(** The [try] block of [load_data], once the path is settled. *)
Definition load_data_try (p : string) : M Result :=
  try_except
    (d <- call (ReadCsv p) (read_csv env p) ;;
     write_df d ;;
     write_name (path_name env p) ;;
     st <- read_STATE ;;
     ret [("ok", VBool true);
          ("dataset", match name st with Some n => VStr n | None => VNone end);
          ("rows", VInt (len d));
          ("cols", VInt (ncols d));
          ("columns", VList (map VStr (column_names d)))])
    (fun e => ret (failure ("load_failed:" ++ cls e ++ ":" ++ msg e))).

Definition load_data (path : option string) : M Result :=
  match path with
  | None =>
      found <- call (PathExists "dataset.csv") (path_exists env "dataset.csv") ;;
      if found : bool
      then load_data_try "dataset.csv"
      else ret (failure "no_path_provided_and_dataset.csv_not_found")
  | Some p => load_data_try p
  end.

Definition set_schema (s : list (string * list string)) : M Result :=
  write_schema s ;;
  ret [("ok", VBool true); ("keys", VList (map VStr (map fst s)))].

(** A stored schema as a Python value. *)
Definition schema_value (s : option (list (string * list string))) : value :=
  match s with
  | None => VNone
  | Some b => VDict (map (fun kv => (VStr (fst kv), VList (map VStr (snd kv)))) b)
  end.

Definition get_schema : M Result :=
  st <- read_STATE ;;
  ret [("ok", VBool (match schema st with Some _ => true | None => false end));
       ("schema", schema_value (schema st))].

(** *** Summaries *)

Definition summary (numeric_only : bool) : M Result :=
  st <- read_STATE ;;
  match df st with
  | None => ret no_dataset_loaded
  | Some d =>
      try_except
        (desc <- call (Pandas "describe") (describe env d numeric_only) ;;
         ret [("ok", VBool true);
              ("rows", VInt (len d));
              ("cols", VInt (ncols d));
              ("describe", desc)])
        (fun e => ret (failure ("summary_failed:" ++ cls e ++ ":" ++ msg e)))
  end.

Definition head (n : Z) : M Result :=
  st <- read_STATE ;;
  match df st with
  | None => ret no_dataset_loaded
  | Some d =>
      rows <- call (Pandas "head") (head_records env d n) ;;
      ret [("ok", VBool true); ("rows", rows)]
  end.

(** *** Categorical *)

(** The chart of one column's counts. *)
Definition bar_chart (top_n : Z) (c : string) (counts : list (value * value)) : chart :=
  Bar (map fst counts) (map snd counts) ("Top " ++ str_int top_n ++ ": " ++ c).

(** One turn of the loop of [top_categories]: the counts are stored
    under [c] before the chart is drawn, and any exception of the turn
    replaces the entry for [c] by its message. *)
Definition top_categories_step (d : DataFrame) (top_n : Z) (out : Result) (c : string)
  : M Result :=
  try_except
    (s <- of_outcome (getitem env d c) ;;
     counts <- call (Pandas "value_counts") (category_counts env s top_n) ;;
     try_except
       (call (Plot (bar_chart top_n c counts)) (show env (bar_chart top_n c counts)) ;;
        ret (setitem out c (VDict counts)))
       (fun e => ret (setitem (setitem out c (VDict counts)) c (VStr ("error:" ++ msg e)))))
    (fun e => ret (setitem out c (VStr ("error:" ++ msg e)))).

(** [for c in columns: ...] over the dictionary [out]. *)
Fixpoint top_categories_loop (d : DataFrame) (top_n : Z) (cols : list string) (out : Result)
  : M Result :=
  match cols with
  | [] => ret out
  | c :: cols' =>
      out' <- top_categories_step d top_n out c ;;
      top_categories_loop d top_n cols' out'
  end.

Definition top_categories (cols : list string) (top_n : Z) : M Result :=
  st <- read_STATE ;;
  match df st with
  | None => ret no_dataset_loaded
  | Some d =>
      out <- top_categories_loop d top_n cols [] ;;
      ret [("ok", VBool true); ("top_categories", str_dict out)]
  end.

(** *** Correlations *)

Definition correlations (cols : option (list string)) (method : string) : M Result :=
  st <- read_STATE ;;
  match df st with
  | None => ret no_dataset_loaded
  | Some d =>
      try_except
        (c <- call (Pandas "corr") (corr env d cols method) ;;
         ret [("ok", VBool true); ("method", VStr method); ("corr", c)])
        (fun e => ret (failure ("correlation_failed:" ++ msg e)))
  end.

Definition scatter_chart (d : DataFrame) (x y : string) : chart :=
  Scatter d x y (x ++ " vs " ++ y).

(** One turn of the loop of [scatter_pairs]. *)
Definition scatter_pairs_step (d : DataFrame) (rendered : list string) (xy : string * string)
  : M (list string) :=
  let (x, y) := xy in
  try_except
    (call (Plot (scatter_chart d x y)) (show env (scatter_chart d x y)) ;;
     ret (List.app rendered [x ++ "_vs_" ++ y]))
    (fun e => ret (List.app rendered [x ++ "_vs_" ++ y ++ "_error:" ++ msg e])).

Fixpoint scatter_pairs_loop (d : DataFrame) (pairs : list (string * string))
  (rendered : list string) : M (list string) :=
  match pairs with
  | [] => ret rendered
  | xy :: pairs' =>
      rendered' <- scatter_pairs_step d rendered xy ;;
      scatter_pairs_loop d pairs' rendered'
  end.

Definition scatter_pairs (pairs : list (string * string)) : M Result :=
  st <- read_STATE ;;
  match df st with
  | None => ret no_dataset_loaded
  | Some d =>
      rendered <- scatter_pairs_loop d pairs [] ;;
      ret [("ok", VBool true); ("pairs_rendered", VList (map VStr rendered))]
  end.

(** *** Outliers *)

(** [df[columns]] for a list of labels: the columns in the order
    asked for, when every label is a column. *)
Fixpoint take_columns (d : DataFrame) (cols : list string) : option (list (string * Series)) :=
  match cols with
  | [] => Some []
  | c :: cols' =>
      match find_column c (columns d), take_columns d cols' with
      | Some s, Some sub => Some ((c, s) :: sub)
      | _, _ => None
      end
  end.

Definition getitem_list (d : DataFrame) (cols : list string)
  : outcome (list (string * Series)) :=
  match take_columns d cols with
  | Some sub => Ret sub
  | None => Raise (Exn "KeyError" (not_in_index env (column_names d) cols))
  end.

(** [.select_dtypes(include=np.number)]: the numeric columns, each
    with its cells. *)
Fixpoint select_number (sub : list (string * Series)) : list (Series * list float) :=
  match sub with
  | [] => []
  | (_, s) :: sub' =>
      match numeric_cells s with
      | Some cells => (s, cells) :: select_number sub'
      | None => select_number sub'
      end
  end.

(** The literal [1e-9], the double [0x1.12e0be826d695p-30]. *)
Definition denominator_floor : float := 0x1.12e0be826d695p-30.

(** One cell of [(sub - sub.mean()) / (sub.std(ddof=0) + 1e-9)], from
    the mean and the standard deviation of its column. *)
Definition zscore (m sd x : float) : float := (x - m) / (sd + denominator_floor).

(** One column of [zscores]. *)
Definition zscores_of (col : Series * list float) : list float :=
  map (zscore (mean env (fst col)) (std env (fst col))) (snd col).

(** One cell of [zscores.abs() > z]. *)
Definition exceeds (z v : float) : bool := (z <? abs v)%float.

(** [.any(axis=1)] over the rows [0 .. n-1]. *)
Definition any_axis1 (n : nat) (cols : list (list bool)) : list bool :=
  map (fun i => existsb (fun col => nth i col false) cols) (seq 0 n).

(** [df.index[mask].tolist()] for the index [i, i+1, ...]; the index
    [read_csv] gives starts at 0. *)
Fixpoint index_where (i : Z) (mask : list bool) : list Z :=
  match mask with
  | [] => []
  | true :: mask' => i :: index_where (i + 1) mask'
  | false :: mask' => index_where (i + 1) mask'
  end.

Definition outliers (cols : list string) (z : float) : M Result :=
  st <- read_STATE ;;
  match df st with
  | None => ret no_dataset_loaded
  | Some d =>
      try_except
        (picked <- of_outcome (getitem_list d cols) ;;
         let sub := select_number picked in
         zscores <- call (Pandas "zscore") (Ret (map zscores_of sub)) ;;
         let mask := any_axis1 (Z.to_nat (nrows d)) (map (map (exceeds z)) zscores) in
         let indices := index_where 0 mask in
         ret [("ok", VBool true);
              ("count", VInt (Z.of_nat (List.length indices)));
              ("indices", VList (map VInt indices))])
        (fun e => ret (failure ("outlier_failed:" ++ msg e)))
  end.

(** *** Missing values *)

Definition missing (threshold : float) : M Result :=
  st <- read_STATE ;;
  match df st with
  | None => ret no_dataset_loaded
  | Some d =>
      flagged <- call (Pandas "isna") (missing_fractions env d threshold) ;;
      ret [("ok", VBool true); ("threshold", VFloat threshold); ("missing", flagged)]
  end.

(** *** Distributions and XY plots *)

Definition plot_hist (column : string) (nbins : Z) : M Result :=
  st <- read_STATE ;;
  match df st with
  | None => ret no_dataset_loaded
  | Some d =>
      let fig := Histogram d column nbins ("Distribution: " ++ column) in
      try_except
        (call (Plot fig) (show env fig) ;;
         ret [("ok", VBool true)])
        (fun e => ret (failure ("plot_hist_failed:" ++ msg e)))
  end.

Definition plot_xy (x y : string) : M Result :=
  st <- read_STATE ;;
  match df st with
  | None => ret no_dataset_loaded
  | Some d =>
      try_except
        (call (Plot (scatter_chart d x y)) (show env (scatter_chart d x y)) ;;
         ret [("ok", VBool true)])
        (fun e => ret (failure ("plot_xy_failed:" ++ msg e)))
  end.

(** *** Time trends *)

(** [grp.to_dict()] with keys built by [key]. *)
Definition trend_dict (key : Z -> value) (grp : list (Z * Z)) : list (value * value) :=
  map (fun r => (key (fst r), VInt (snd r))) grp.

Definition line_chart (column title : string) (result : list (value * value)) : chart :=
  Line (map fst result) (map snd result) column title.

(** The non-datetime branch starts with
    [pd.to_numeric(s, errors="coerce").dropna().astype(int)].  On an
    integer column [to_numeric] and [dropna] change nothing, and the
    cast leaves an [int64] value as it is and wraps a [uint64] value
    of [2^63] or more. *)
Definition to_numeric_int (s : Series) : M (list Z) :=
  match s with
  | SInt l => ret (map astype_int l)
  | _ => call (Pandas "to_numeric") (coerce_int env s)
  end.

Definition time_trend (column freq : string) : M Result :=
  st <- read_STATE ;;
  match df st with
  | None => ret no_dataset_loaded
  | Some d =>
      s <- of_outcome (getitem env d column) ;;
      try_except
        (match s with
         | SDatetime l => (* is_datetime64_any_dtype(s) *)
             periods <- call (Pandas "to_period") (to_period env freq (dropna l)) ;;
             let result :=
               trend_dict (VPeriod (fst periods)) (sort_index (value_counts (snd periods))) in
             let fig := line_chart column ("Count by " ++ freq ++ ": " ++ column) result in
             call (Plot fig) (show env fig) ;;
             ret [("ok", VBool true); ("type", VStr "datetime"); ("trend", VDict result)]
         | _ =>
             ser <- to_numeric_int s ;;
             let result := trend_dict VInt (sort_index (value_counts ser)) in
             let fig := line_chart column ("Count by Year: " ++ column) result in
             call (Plot fig) (show env fig) ;;
             ret [("ok", VBool true); ("type", VStr "year-int"); ("trend", VDict result)]
         end)
        (fun e => ret (failure ("time_trend_failed:" ++ msg e)))
  end.

End Tools.
End tools_core.

(** ** server.py *)

(** An argument of a call by keyword: left out, or given. *)
Inductive supplied (A : Type) : Type :=
| Omitted
| Given (a : A).
Arguments Omitted {A}.
Arguments Given {A} a.

Module server.
Section Wrappers.

Variable env : Env.

(** What Python raises when a call leaves out parameters that have no
    default.  (Through MCP the same call is refused as invalid
    arguments; either way the wrapped tool is not reached.) *)
Definition missing_argument (f p : string) : exn :=
  Exn "TypeError" (f ++ "() missing 1 required positional argument: '" ++ p ++ "'").

Definition missing_arguments (f p q : string) : exn :=
  Exn "TypeError"
      (f ++ "() missing 2 required positional arguments: '" ++ p ++ "' and '" ++ q ++ "'").

(** A parameter with a default value. *)
Definition default {A} (a : supplied A) (d : A) : A :=
  match a with Omitted => d | Given v => v end.

(** [def tool_load_data(path)]: [path] has no default here; [None]
    (JSON null) is a value like any other. *)
Definition tool_load_data (path : supplied (option string)) : M Result :=
  match path with
  | Omitted => raise (missing_argument "tool_load_data" "path")
  | Given p => tools_core.load_data env p
  end.

Definition tool_set_schema (schema : supplied (list (string * list string))) : M Result :=
  match schema with
  | Omitted => raise (missing_argument "tool_set_schema" "schema")
  | Given s => tools_core.set_schema s
  end.

Definition tool_get_schema : M Result := tools_core.get_schema.

Definition tool_summary (numeric_only : supplied bool) : M Result :=
  tools_core.summary env (default numeric_only true).

Definition tool_head (n : supplied Z) : M Result :=
  tools_core.head env (default n 5).

Definition tool_top_categories (cols : supplied (list string)) (top_n : supplied Z)
  : M Result :=
  match cols with
  | Omitted => raise (missing_argument "tool_top_categories" "columns")
  | Given c => tools_core.top_categories env c (default top_n 10)
  end.

Definition tool_correlations (cols : supplied (option (list string)))
  (method : supplied string) : M Result :=
  tools_core.correlations env (default cols None) (default method "pearson").

Definition tool_scatter_pairs (pairs : supplied (list (string * string))) : M Result :=
  match pairs with
  | Omitted => raise (missing_argument "tool_scatter_pairs" "pairs")
  | Given ps => tools_core.scatter_pairs env ps
  end.

Definition tool_outliers (cols : supplied (list string)) (z : supplied float) : M Result :=
  match cols with
  | Omitted => raise (missing_argument "tool_outliers" "columns")
  | Given c => tools_core.outliers env c (default z 3%float)
  end.

(** The default [0.20] is the double [0x1.999999999999ap-3]. *)
Definition tool_missing (threshold : supplied float) : M Result :=
  tools_core.missing env (default threshold 0x1.999999999999ap-3%float).

Definition tool_plot_hist (column : supplied string) (nbins : supplied Z) : M Result :=
  match column with
  | Omitted => raise (missing_argument "tool_plot_hist" "column")
  | Given c => tools_core.plot_hist env c (default nbins 30)
  end.

Definition tool_plot_xy (x y : supplied string) : M Result :=
  match x, y with
  | Given a, Given b => tools_core.plot_xy env a b
  | Omitted, Given _ => raise (missing_argument "tool_plot_xy" "x")
  | Given _, Omitted => raise (missing_argument "tool_plot_xy" "y")
  | Omitted, Omitted => raise (missing_arguments "tool_plot_xy" "x" "y")
  end.

Definition tool_time_trend (column : supplied string) (freq : supplied string) : M Result :=
  match column with
  | Omitted => raise (missing_argument "tool_time_trend" "column")
  | Given c => tools_core.time_trend env c (default freq "M")
  end.

End Wrappers.
End server.

(** ** One call of a tool *)

(** A tool of [tools_core.py] with its arguments. *)
Inductive tool_call : Type :=
| Load_data (path : option string)
| Set_schema (s : list (string * list string))
| Get_schema
| Summary (numeric_only : bool)
| Head (n : Z)
| Top_categories (cols : list string) (top_n : Z)
| Correlations (cols : option (list string)) (method : string)
| Scatter_pairs (pairs : list (string * string))
| Outliers (cols : list string) (z : float)
| Missing (threshold : float)
| Plot_hist (column : string) (nbins : Z)
| Plot_xy (x y : string)
| Time_trend (column freq : string).

Definition run (env : Env) (c : tool_call) : M Result :=
  match c with
  | Load_data p => tools_core.load_data env p
  | Set_schema s => tools_core.set_schema s
  | Get_schema => tools_core.get_schema
  | Summary b => tools_core.summary env b
  | Head n => tools_core.head env n
  | Top_categories cs n => tools_core.top_categories env cs n
  | Correlations cs m => tools_core.correlations env cs m
  | Scatter_pairs ps => tools_core.scatter_pairs env ps
  | Outliers cs z => tools_core.outliers env cs z
  | Missing t => tools_core.missing env t
  | Plot_hist c n => tools_core.plot_hist env c n
  | Plot_xy x y => tools_core.plot_xy env x y
  | Time_trend c f => tools_core.time_trend env c f
  end.

(** The tools that work on the loaded table: all but [load_data],
    [set_schema] and [get_schema]. *)
Definition requiresDataset (c : tool_call) : bool :=
  match c with
  | Load_data _ | Set_schema _ | Get_schema => false
  | _ => true
  end.

(** ** The result contract *)

(** A result is well formed when ["ok"] holds a boolean and exactly
    one of a payload and an error comes with it: if it is [False], the
    only other key is ["error"] with a string; if it is [True], there
    is no ["error"] key and there is at least one other key, the
    payload. *)
Definition well_formed (r : Result) : bool :=
  match lookup "ok" r with
  | Some (VBool true) =>
      match lookup "error" r with
      | None => Nat.ltb 1 (List.length r)
      | Some _ => false
      end
  | Some (VBool false) =>
      match lookup "error" r with
      | Some (VStr _) => Nat.eqb (List.length r) 2
      | _ => false
      end
  | _ => false
  end.

(** [plot_hist] and [plot_xy], whose whole work is one chart. *)
Definition is_plot (c : tool_call) : bool :=
  match c with
  | Plot_hist _ _ | Plot_xy _ _ => true
  | _ => false
  end.

(** ** A sample session

    Two small tables and two environments to run the tools on: a
    desktop where every chart is drawn, and a headless machine where
    drawing always fails. *)
Module Sample.

Definition sales : DataFrame :=
  Frame 4 [("year", SInt [2021; 2020; 2021; 2019]);
           ("region", SObject [Some "north"; Some "south"; None; Some "north"]);
           ("sold_on", SDatetime [Some 30; Some 10; None; Some 30])].

Definition no_such_file (p : string) : exn :=
  Exn "FileNotFoundError" ("[Errno 2] No such file or directory: '" ++ p ++ "'").

Definition region_counts : list (value * value) :=
  [(VStr "north", VInt 2); (VStr "south", VInt 1); (VStr "nan", VInt 1)].

(** Three readings: the dose is the double nearest to 0.1 in every
    row, the batch is 7 in every row. *)
Definition readings : DataFrame :=
  Frame 3 [("dose", SFloat [0x1.999999999999ap-4; 0x1.999999999999ap-4;
                            0x1.999999999999ap-4]%float);
           ("batch", SInt [7; 7; 7]);
           ("site", SObject [Some "east"; Some "west"; Some "east"])].

(** [repr] of a label made of letters, digits and underscores. *)
Definition quoted (s : string) : string := "'" ++ s ++ "'".

(** The message of pandas for labels that are not columns. *)
Definition labels_not_found (names labels : list string) : string :=
  let absent := filter (fun c => negb (existsb (String.eqb c) names)) labels in
  let dq := String "034" EmptyString in
  if Nat.eqb (List.length absent) (List.length labels)
  then dq ++ "None of [Index([" ++ String.concat ", " (map quoted labels)
          ++ "], dtype='object')] are in the [columns]" ++ dq
  else dq ++ "[" ++ String.concat ", " (map quoted absent) ++ "] not in index" ++ dq.

(** The sum of a short column, from left to right, and its count. *)
Definition total (cells : list float) : float := fold_left PrimFloat.add cells 0%float.

Definition count (cells : list float) : float :=
  float_of_int (Z.of_nat (List.length cells)).

(** [mean()]: the sum divided by the count. *)
Definition mean_of (s : Series) : float :=
  match numeric_cells s with
  | Some cells => (total cells / count cells)%float
  | None => nan
  end.

(** [std(ddof=0)]: the square root of the mean of the squared
    deviations from the mean. *)
Definition std_of (s : Series) : float :=
  match numeric_cells s with
  | Some cells =>
      let avg := mean_of s in
      sqrt (total (map (fun x => ((avg - x) * (avg - x))%float) cells) / count cells)%float
  | None => nan
  end.

(** The frequencies the sample machines know, with the frequency their
    periods carry. *)
Definition period_label (freq : string) : option string :=
  if String.eqb freq "D" then Some "D"
  else if String.eqb freq "M" then Some "M"
  else if String.eqb freq "Y" then Some "Y-DEC"
  else None.

Definition desktop : Env := {|
  repr := quoted;
  path_exists := fun p => Ret (String.eqb p "sales.csv");
  path_name := fun p => p;
  read_csv := fun p => if String.eqb p "sales.csv" then Ret sales else Raise (no_such_file p);
  describe := fun _ _ => Ret (VDict []);
  head_records := fun d n => Ret (VList (map VStr (column_names d)));
  category_counts := fun s _ =>
    match s with
    | SObject _ => Ret region_counts
    | _ => Ret []
    end;
  corr := fun _ cols _ =>
    match cols with
    | None => Ret (VDict [])
    | Some _ => Raise (Exn "ValueError" "could not convert string to float: 'north'")
    end;
  not_in_index := labels_not_found;
  mean := mean_of;
  std := std_of;
  missing_fractions := fun _ _ => Ret (VDict []);
  to_period := fun freq l =>
    match period_label freq with
    | Some label => Ret (label, l)
    | None => Raise (Exn "ValueError" ("Invalid frequency: " ++ freq))
    end;
  coerce_int := fun _ => Ret [];
  show := fun _ => Ret tt
|}.

Definition no_display : exn := Exn "ValueError" "no renderer available".

Definition headless : Env := {|
  repr := repr desktop;
  path_exists := path_exists desktop;
  path_name := path_name desktop;
  read_csv := read_csv desktop;
  describe := describe desktop;
  head_records := head_records desktop;
  category_counts := category_counts desktop;
  corr := corr desktop;
  not_in_index := not_in_index desktop;
  mean := mean desktop;
  std := std desktop;
  missing_fractions := missing_fractions desktop;
  to_period := to_period desktop;
  coerce_int := coerce_int desktop;
  show := fun _ => Raise no_display
|}.

(** The world after [sales.csv] has been loaded. *)
Definition loaded : World :=
  Mk (State (Some sales) (Some "sales.csv") None) [ReadCsv "sales.csv"].

(** The world with the readings as the active table. *)
Definition measured : World :=
  Mk (State (Some readings) (Some "readings.csv") None) [ReadCsv "readings.csv"].

End Sample.

(** ** Vocabulary of the properties *)

(** A computation that leaves [STATE] as it found it. *)
Definition keeps_STATE {A} (m : M A) : Prop :=
  forall w, state (snd (m w)) = state w.

(** A computation that returns in every world. *)
Definition never_raises {A} (m : M A) : Prop :=
  forall w, exists a, fst (m w) = Ret a.

(** Every value a computation returns satisfies [P]. *)
Definition returns {A} (P : A -> Prop) (m : M A) : Prop :=
  forall w a, fst (m w) = Ret a -> P a.

(** Rows in ascending order of their index, possibly with repeats. *)
Definition ascending (t : list (Z * Z)) : Prop :=
  StronglySorted (fun a b => fst a <= fst b) t.

(** The order of dictionary keys of one kind: integers by value,
    periods of one frequency by ordinal. *)
Definition key_lt (a b : value) : Prop :=
  match a, b with
  | VInt x, VInt y => x < y
  | VPeriod f x, VPeriod g y => f = g /\ x < y
  | _, _ => False
  end.

(** A column that, if it is numeric, holds in every row the value that
    pandas computes as its mean: a constant column whose mean comes
    out exact. *)
Definition constant_at_mean (env : Env) (s : Series) : Prop :=
  forall cells x, numeric_cells s = Some cells -> In x cells -> x = mean env s.

(** What the entry of one column of [top_categories] ends up being:
    its counts, or the message of whatever failed for that column. *)
Definition top_categories_entry (env : Env) (d : DataFrame) (top_n : Z) (c : string)
  : value :=
  match getitem env d c with
  | Raise e => VStr ("error:" ++ msg e)
  | Ret s =>
      match category_counts env s top_n with
      | Raise e => VStr ("error:" ++ msg e)
      | Ret counts =>
          match show env (tools_core.bar_chart top_n c counts) with
          | Raise e => VStr ("error:" ++ msg e)
          | Ret _ => VDict counts
          end
      end
  end.

(** The text [scatter_pairs] records for one pair. *)
Definition scatter_pairs_entry (env : Env) (d : DataFrame) (xy : string * string) : string :=
  match show env (tools_core.scatter_chart d (fst xy) (snd xy)) with
  | Ret _ => fst xy ++ "_vs_" ++ snd xy
  | Raise e => fst xy ++ "_vs_" ++ snd xy ++ "_error:" ++ msg e
  end.

(** ** Sessions and requests *)

(** The world after a series of tool calls, each made in the world the
    previous one left.  The server answers a tool that raised with an
    error reply and goes on, so a call that raises passes its world on
    like any other. *)
Fixpoint session (env : Env) (cs : list tool_call) (w : World) : World :=
  match cs with
  | [] => w
  | c :: cs' => session env cs' (snd (run env c w))
  end.

(** A call of one of the thirteen wrappers of [server.py], each
    argument given or left out. *)
Inductive request : Type :=
| Tool_load_data (path : supplied (option string))
| Tool_set_schema (schema : supplied (list (string * list string)))
| Tool_get_schema
| Tool_summary (numeric_only : supplied bool)
| Tool_head (n : supplied Z)
| Tool_top_categories (cols : supplied (list string)) (top_n : supplied Z)
| Tool_correlations (cols : supplied (option (list string))) (method : supplied string)
| Tool_scatter_pairs (pairs : supplied (list (string * string)))
| Tool_outliers (cols : supplied (list string)) (z : supplied float)
| Tool_missing (threshold : supplied float)
| Tool_plot_hist (column : supplied string) (nbins : supplied Z)
| Tool_plot_xy (x y : supplied string)
| Tool_time_trend (column : supplied string) (freq : supplied string).

Definition serve (env : Env) (r : request) : M Result :=
  match r with
  | Tool_load_data p => server.tool_load_data env p
  | Tool_set_schema s => server.tool_set_schema s
  | Tool_get_schema => server.tool_get_schema
  | Tool_summary b => server.tool_summary env b
  | Tool_head n => server.tool_head env n
  | Tool_top_categories cs n => server.tool_top_categories env cs n
  | Tool_correlations cs m => server.tool_correlations env cs m
  | Tool_scatter_pairs ps => server.tool_scatter_pairs env ps
  | Tool_outliers cs z => server.tool_outliers env cs z
  | Tool_missing t => server.tool_missing env t
  | Tool_plot_hist c n => server.tool_plot_hist env c n
  | Tool_plot_xy x y => server.tool_plot_xy env x y
  | Tool_time_trend c f => server.tool_time_trend env c f
  end.

(** The wrappers of the tools that work on the loaded table. *)
Definition reads_table (r : request) : bool :=
  match r with
  | Tool_load_data _ | Tool_set_schema _ | Tool_get_schema => false
  | _ => true
  end.

(** [Set_schema] calls, the only ones that write the schema slot. *)
Definition is_set_schema (c : tool_call) : bool :=
  match c with Set_schema _ => true | _ => false end.

(** The table and name slots are filled together or not at all. *)
Definition in_sync (st : STATE) : Prop :=
  df st = None <-> name st = None.

(** The count a tally holds for [k], 0 when [k] has no row. *)
Fixpoint count_of (k : Z) (t : list (Z * Z)) : Z :=
  match t with
  | [] => 0
  | (k', n) :: t' => if Z.eqb k k' then n else count_of k t'
  end.

(** ** More sample machines *)
Module Cases.

(** A working directory that holds [dataset.csv], the sales table. *)
Definition workdir : Env := {|
  repr := repr Sample.desktop;
  path_exists := fun p => Ret (String.eqb p "dataset.csv");
  path_name := path_name Sample.desktop;
  read_csv := fun p =>
    if String.eqb p "dataset.csv" then Ret Sample.sales else Raise (Sample.no_such_file p);
  describe := describe Sample.desktop;
  head_records := head_records Sample.desktop;
  category_counts := category_counts Sample.desktop;
  corr := corr Sample.desktop;
  not_in_index := not_in_index Sample.desktop;
  mean := mean Sample.desktop;
  std := std Sample.desktop;
  missing_fractions := missing_fractions Sample.desktop;
  to_period := to_period Sample.desktop;
  coerce_int := coerce_int Sample.desktop;
  show := show Sample.desktop
|}.

End Cases.

(** ** The client side: agent.py and client.py

    Both programs talk to the server through an MCP session and to
    the user through the terminal.  What they print, post and call is
    recorded in order; the session, the HTTP library, [json] and the
    [str] methods [strip] and [lower] are the [Host].  Text is the
    UTF-8 string of the source, in which a space is the byte 32. *)

(** [bool(v)]. *)
Definition truthy (v : value) : bool :=
  match v with
  | VNone => false
  | VBool b => b
  | VInt z => negb (Z.eqb z 0)
  | VFloat f => negb (PrimFloat.eqb f 0)
  | VStr s => negb (String.eqb s "")
  | VPeriod _ _ => true
  | VList l => match l with [] => false | _ => true end
  | VDict d => match d with [] => false | _ => true end
  end.

(** [type(v).__name__]. *)
Definition type_name (v : value) : string :=
  match v with
  | VNone => "NoneType"
  | VBool _ => "bool"
  | VInt _ => "int"
  | VFloat _ => "float"
  | VStr _ => "str"
  | VPeriod _ _ => "Period"
  | VList _ => "list"
  | VDict _ => "dict"
  end.

Definition no_attribute (class attr : string) : exn :=
  Exn "AttributeError" ("'" ++ class ++ "' object has no attribute '" ++ attr ++ "'").

(** The entry of a dictionary under a string key. *)
Fixpoint dict_find (k : string) (d : list (value * value)) : option value :=
  match d with
  | [] => None
  | (VStr k', v) :: d' => if String.eqb k k' then Some v else dict_find k d'
  | _ :: d' => dict_find k d'
  end.

(** [v.get(k, default)]: only a dictionary has [get]. *)
Definition get (v : value) (k : string) (default : value) : outcome value :=
  match v with
  | VDict d => Ret (match dict_find k d with Some x => x | None => default end)
  | _ => Raise (no_attribute (type_name v) "get")
  end.

(** One content part of a tool result, as [dump_tool_result] reads it:
    [getattr(p, "type", None)], [p.data] (an attribute that may be
    missing), [getattr(p, "text", "")], and [str(p)]. *)
Record part : Type := Part {
  part_class : string;
  part_type : option string;
  part_data : option value;
  part_text : option string;
  part_str : string
}.

(** What [session.call_tool] returns:
    [getattr(r, "structuredContent", None)] and
    [getattr(r, "content", [])]. *)
Record tool_result : Type := ToolResult {
  structuredContent : option value;
  content : option (list part)
}.

Record Host : Type := {
  (** [s.strip()] and [s.lower()] *)
  str_strip : string -> string;
  str_lower : string -> string;
  (** [json.loads(s)] and [json.dumps(v, indent=2)] *)
  json_loads : string -> outcome value;
  json_dumps : value -> outcome string;
  (** [requests.post(url, json=payload, timeout=120)],
      [r.raise_for_status()], [r.json()] *)
  http_post : string -> value -> outcome value;
  (** [await session.call_tool(tool, arguments=args)] *)
  call_tool : string -> value -> outcome tool_result;
  (** [await session.close()] *)
  session_close : outcome unit
}.

(** What is printed.  [Out s] is [print(s)]; the other prints are
    named after their text and carry the values printed in it. *)
Inductive message : Type :=
| Out (s : string)
| Agent_prompt
| Agent_bye
| Agent_bye_interrupted
| Agent_not_json (raw : string)
| Agent_unknown_tool (tool plan : value)
| Agent_plan (tool : string) (args : value)
| Agent_reason (reason : value)
| Agent_result_header
| Agent_next (question : value)
| Client_prompt
| Client_exiting
| Client_exiting_interrupted
| Client_invalid_json
| Client_calling (tool : string) (args : value).

Inductive io : Type :=
| Printed (m : message)
| Posted (url : string) (payload : value)
| Called (tool : string) (args : value)
| Closed.

(** A program of the client side: it extends the record of what has
    happened and returns or raises.  Here an [exn] may also be of a
    class outside [Exception], such as [KeyboardInterrupt]. *)
Definition IO (A : Type) : Type := list io -> outcome A * list io.

Definition io_ret {A} (a : A) : IO A := fun t => (Ret a, t).

Definition io_raise {A} (e : exn) : IO A := fun t => (Raise e, t).

Definition io_bind {A B} (m : IO A) (k : A -> IO B) : IO B :=
  fun t =>
    match m t with
    | (Ret a, t') => k a t'
    | (Raise e, t') => (Raise e, t')
    end.

(** [try: m  except <class> as e: h e]: an exception of another class
    passes through. *)
Definition io_except {A} (m : IO A) (class : string) (h : exn -> IO A) : IO A :=
  fun t =>
    match m t with
    | (Ret a, t') => (Ret a, t')
    | (Raise e, t') => if String.eqb (cls e) class then h e t' else (Raise e, t')
    end.

(** The classes that are not under [Exception]. *)
Definition outside_Exception (class : string) : bool :=
  existsb (String.eqb class)
    ["KeyboardInterrupt"; "SystemExit"; "GeneratorExit"; "CancelledError"].

(** [try: m  except Exception as e: h e]. *)
Definition io_except_Exception {A} (m : IO A) (h : exn -> IO A) : IO A :=
  fun t =>
    match m t with
    | (Ret a, t') => (Ret a, t')
    | (Raise e, t') => if outside_Exception (cls e) then (Raise e, t') else h e t'
    end.

(** [try: m  finally: c]: [c] runs on both outcomes, and what it raises
    takes over. *)
Definition io_finally {A} (m : IO A) (c : IO unit) : IO A :=
  fun t =>
    match m t with
    | (r, t') =>
        match c t' with
        | (Ret _, t'') => (r, t'')
        | (Raise e, t'') => (Raise e, t'')
        end
    end.

(** [print(...)]: the line is recorded.  The terminal is taken to
    accept what is printed; a [print] that fails (a closed pipe, a
    character the terminal cannot encode) is not part of this record,
    so what is stated about these programs is stated for runs in which
    printing works. *)
Definition emit (m : message) : IO unit := fun t => (Ret tt, List.app t [Printed m]).

(** A call through the session or the network: recorded, then its
    outcome. *)
Definition ask {A} (ev : io) (r : outcome A) : IO A := fun t => (r, List.app t [ev]).

Definition io_of {A} (r : outcome A) : IO A := fun t => (r, t).

Declare Scope io_scope.
Delimit Scope io_scope with io.
Notation "x <- m ;; k" := (io_bind m (fun x => k))
  (at level 61, m at next level, right associativity) : io_scope.
Notation "m ;; k" := (io_bind m (fun _ => k))
  (at level 61, right associativity) : io_scope.

(** Whether the loop goes on to the next line ([continue], or the end
    of the body) or is left ([break]). *)
Inductive flow : Type :=
| Continue
| Break.

(** [s in ("exit", "quit")]. *)
Definition is_quit (s : string) : bool := String.eqb s "exit" || String.eqb s "quit".

(** [line.split(" ", 1)] when [" " in line]; [None] when it is not. *)
Fixpoint split_space (s : string) : option (string * string) :=
  match s with
  | EmptyString => None
  | String c s' =>
      if Ascii.eqb c " " then Some (EmptyString, s')
      else
        match split_space s' with
        | Some (a, b) => Some (String c a, b)
        | None => None
        end
  end.

(** The line feed of the f-strings. *)
Definition nl : string := String "010" EmptyString.

(** What [input()] raises when the input has ended. *)
Definition EOFError : exn := Exn "EOFError" "EOF when reading a line".

(** [p.data]. *)
Definition data_of (p : part) : outcome value :=
  match part_data p with
  | Some v => Ret v
  | None => Raise (no_attribute (part_class p) "data")
  end.

Definition text_of (p : part) : string :=
  match part_text p with Some s => s | None => "" end.

Definition has_type (p : part) (t : string) : bool :=
  match part_type p with Some t' => String.eqb t' t | None => false end.

(** [getattr(r, "content", []) or []]. *)
Definition parts_of (r : tool_result) : list part :=
  match content r with Some l => l | None => [] end.

(** [if getattr(r, "structuredContent", None):] *)
Definition structured (r : tool_result) : option value :=
  match structuredContent r with
  | Some v => if truthy v then Some v else None
  | None => None
  end.

(** *** agent.py *)

Module agent.
Section Agent.

Variable host : Host.

(** The text of the constant [AGENT_SYSTEM_PROMPT], which is passed on
    to the model and not looked at. *)
Variable AGENT_SYSTEM_PROMPT : string.

Local Open Scope io_scope.

Definition OLLAMA_MODEL : string := "llama3.1".

(** The temperature [0.2] is the double [0x1.999999999999ap-3]. *)
Definition call_llm (system user : string) : IO string :=
  let url := "http://localhost:11434/api/chat" in
  let payload :=
    VDict [(VStr "model", VStr OLLAMA_MODEL);
           (VStr "messages",
            VList [VDict [(VStr "role", VStr "system"); (VStr "content", VStr system)];
                   VDict [(VStr "role", VStr "user"); (VStr "content", VStr user)]]);
           (VStr "stream", VBool false);
           (VStr "options", VDict [(VStr "temperature", VFloat 0x1.999999999999ap-3)])] in
  data <- ask (Posted url payload) (http_post host url payload) ;;
  message <- io_of (get data "message" (VDict [])) ;;
  content <- io_of (get message "content" (VStr "")) ;;
  match content with
  | VStr s => io_ret (str_strip host s)
  | _ => io_raise (no_attribute (type_name content) "strip")
  end.

(** The first loop of [dump_tool_result]: the first part of type
    ["json"] is printed and the loop is left; the answer is
    [printed]. *)
Fixpoint print_first_json (parts : list part) : IO bool :=
  match parts with
  | [] => io_ret false
  | p :: ps =>
      if has_type p "json"
      then
        d <- io_of (data_of p) ;;
        s <- io_of (json_dumps host d) ;;
        emit (Out s) ;;
        io_ret true
      else print_first_json ps
  end.

(** The second loop: every part of type ["text"]. *)
Fixpoint print_texts (parts : list part) : IO unit :=
  match parts with
  | [] => io_ret tt
  | p :: ps =>
      (if has_type p "text" then emit (Out (text_of p)) else io_ret tt) ;;
      print_texts ps
  end.

Definition dump_tool_result (r : tool_result) : IO unit :=
  match structured r with
  | Some sc =>
      s <- io_of (json_dumps host sc) ;;
      emit (Out s)
  | None =>
      match parts_of r with
      | [] => emit (Out "{}")
      | parts =>
          printed <- print_first_json parts ;;
          if printed : bool then io_ret tt else print_texts parts
      end
  end.

(** Steps 4 to 7 of a turn: what is done with the text the model
    returned. *)
Definition agent_act (tool_names : list string) (raw : string) : IO flow :=
  parsed <- io_except
              (plan <- io_of (json_loads host raw) ;; io_ret (Some plan))
              "JSONDecodeError"
              (fun _ => emit (Agent_not_json raw) ;; io_ret None) ;;
  match parsed with
  | None => io_ret Continue
  | Some plan =>
      tool <- io_of (get plan "tool" VNone) ;;
      a <- io_of (get plan "args" (VDict [])) ;;
      let args := if truthy a then a else VDict [] in
      match
        match tool with
        | VStr t => if existsb (String.eqb t) tool_names then Some t else None
        | _ => None
        end
      with
      | None =>
          emit (Agent_unknown_tool tool plan) ;;
          io_ret Continue
      | Some t =>
          emit (Agent_plan t args) ;;
          reason <- io_of (get plan "reason" VNone) ;;
          (if truthy reason then emit (Agent_reason reason) else io_ret tt) ;;
          result <- ask (Called t args) (call_tool host t args) ;;
          emit Agent_result_header ;;
          dump_tool_result result ;;
          nxt <- io_of (get plan "next" VNone) ;;
          (if truthy nxt then emit (Agent_next nxt) else io_ret tt) ;;
          io_ret Continue
      end
  end.

Definition prompt_user (tool_names : list string) (user_msg : string) : string :=
  ("Available tools: [" ++ String.concat ", " tool_names ++ "]." ++ nl
   ++ "User request: " ++ user_msg ++ nl
   ++ "Return only the JSON as specified.")%string.

(** The body of the [while True] loop for what [input] does this
    time. *)
Definition agent_turn (tool_names : list string) (typed : outcome string) : IO flow :=
  io_except
    (emit Agent_prompt ;;
     line <- io_of typed ;;
     let user_msg := str_strip host line in
     if is_quit (str_lower host user_msg)
     then emit Agent_bye ;; io_ret Break
     else if String.eqb user_msg ""
     then io_ret Continue
     else
       raw <- call_llm AGENT_SYSTEM_PROMPT (prompt_user tool_names user_msg) ;;
       agent_act tool_names raw)
    "KeyboardInterrupt"
    (fun _ => emit Agent_bye_interrupted ;; io_ret Break).

(** The loop over what is typed; when the input has ended, [input]
    raises [EOFError]. *)
Fixpoint agent_loop (tool_names : list string) (stdin : list (outcome string)) : IO unit :=
  match stdin with
  | [] =>
      agent_turn tool_names (Raise EOFError) ;;
      io_ret tt
  | typed :: rest =>
      f <- agent_turn tool_names typed ;;
      match f with
      | Break => io_ret tt
      | Continue => agent_loop tool_names rest
      end
  end.

End Agent.
End agent.

(** *** client.py *)

Module client.
Section Client.

Variable host : Host.

Local Open Scope io_scope.

(** One turn of the loop over the parts, [i] being the index. *)
Definition dump_part (i : Z) (p : part) : IO unit :=
  if has_type p "json"
  then
    io_except_Exception
      (emit (Out ("[part " ++ str_int i ++ " json]")%string) ;;
       d <- io_of (data_of p) ;;
       s <- io_of (json_dumps host d) ;;
       emit (Out s))
      (fun e => emit (Out ("[part " ++ str_int i ++ " json](unprintable): " ++ msg e)%string))
  else if has_type p "text"
  then
    emit (Out ("[part " ++ str_int i ++ " text]")%string) ;;
    emit (Out (text_of p))
  else
    emit (Out ("[part " ++ str_int i ++ " "
                ++ match part_type p with Some t => t | None => "None" end
                ++ "] " ++ part_str p)%string).

Fixpoint dump_parts (i : Z) (parts : list part) : IO unit :=
  match parts with
  | [] => io_ret tt
  | p :: ps => dump_part i p ;; dump_parts (i + 1) ps
  end.

(** What follows the structured content: the parts. *)
Definition dump_content (r : tool_result) : IO unit :=
  match parts_of r with
  | [] => emit (Out "{}")
  | parts => dump_parts 0 parts
  end.

Definition dump_tool_result (r : tool_result) : IO unit :=
  match structured r with
  | Some sc =>
      done <- io_except_Exception
                (s <- io_of (json_dumps host sc) ;; emit (Out s) ;; io_ret true)
                (fun _ => io_ret false) ;;
      if done : bool then io_ret tt else dump_content r
  | None => dump_content r
  end.

(** The end of a turn: the call and the print of its result. *)
Definition call_and_dump (tool : string) (args : value) : IO flow :=
  emit (Client_calling tool args) ;;
  res <- ask (Called tool args) (call_tool host tool args) ;;
  dump_tool_result res ;;
  io_ret Continue.

(** The body of the [while True] loop for what [input] does this
    time. *)
Definition client_turn (typed : outcome string) : IO flow :=
  emit Client_prompt ;;
  typed_line <- io_of typed ;;
  let line := str_strip host typed_line in
  if String.eqb line ""
  then io_ret Continue
  else if is_quit (str_lower host line)
  then emit Client_exiting ;; io_ret Break
  else
    match split_space line with
    | Some (tool, json_part) =>
        parsed <- io_except
                    (a <- io_of (json_loads host json_part) ;; io_ret (Some a))
                    "JSONDecodeError"
                    (fun _ => emit Client_invalid_json ;; io_ret None) ;;
        match parsed with
        | None => io_ret Continue
        | Some args => call_and_dump tool args
        end
    | None => call_and_dump line (VDict [])
    end.

Fixpoint client_loop (stdin : list (outcome string)) : IO unit :=
  match stdin with
  | [] =>
      client_turn (Raise EOFError) ;;
      io_ret tt
  | typed :: rest =>
      f <- client_turn typed ;;
      match f with
      | Break => io_ret tt
      | Continue => client_loop rest
      end
  end.

(** The [try] statement of [main] around the loop: the interrupt is
    answered, and the session is closed in all cases, a session
    without [close] being let pass. *)
Definition client_session (stdin : list (outcome string)) : IO unit :=
  io_finally
    (io_except (client_loop stdin) "KeyboardInterrupt"
       (fun _ => emit Client_exiting_interrupted))
    (io_except (ask Closed (session_close host)) "AttributeError" (fun _ => io_ret tt)).

End Client.
End client.

(** The calls and the posts among what has happened. *)
Fixpoint calls (t : list io) : list (string * value) :=
  match t with
  | [] => []
  | Called tool args :: t' => (tool, args) :: calls t'
  | _ :: t' => calls t'
  end.

Fixpoint posts (t : list io) : list value :=
  match t with
  | [] => []
  | Posted _ payload :: t' => payload :: posts t'
  | _ :: t' => posts t'
  end.

Fixpoint lines (t : list io) : list string :=
  match t with
  | [] => []
  | Printed (Out s) :: t' => s :: lines t'
  | _ :: t' => lines t'
  end.

Fixpoint closes (t : list io) : nat :=
  match t with
  | [] => 0
  | Closed :: t' => S (closes t')
  | _ :: t' => closes t'
  end.

(** A program that only adds to the record: events that all satisfy
    [Q], among them at most [c] calls and [p] posts. *)
Definition within (Q : io -> Prop) (c p : nat) {A} (m : IO A) : Prop :=
  forall t, exists new,
    snd (m t) = (t ++ new)%list /\
    Forall Q new /\
    (List.length (calls new) <= c)%nat /\
    (List.length (posts new) <= p)%nat.

(** A program that returns [a] or nothing. *)
Definition io_returns {A} (P : A -> Prop) (m : IO A) : Prop :=
  forall t a, fst (m t) = Ret a -> P a.

(** An event other than closing the session, with any tool called
    subject to [P]. *)
Definition calling (P : string -> value -> Prop) (ev : io) : Prop :=
  match ev with
  | Called tool args => P tool args
  | Closed => False
  | _ => True
  end.

(** A print of one line of text. *)
Definition is_line (ev : io) : Prop :=
  match ev with
  | Printed (Out _) => True
  | _ => False
  end.

(** [" " in s]. *)
Fixpoint has_space (s : string) : bool :=
  match s with
  | EmptyString => false
  | String c s' => Ascii.eqb c " " || has_space s'
  end.

(** A small terminal session for the two programs. *)
Module Desk.

Definition dq : string := String "034" EmptyString.

(** The text [{"tool": "tool_head"}]. *)
Definition plan_head : string :=
  ("{" ++ dq ++ "tool" ++ dq ++ ": " ++ dq ++ "tool_head" ++ dq ++ "}")%string.

(** The text [{"tool": "rm"}]. *)
Definition plan_rm : string :=
  ("{" ++ dq ++ "tool" ++ dq ++ ": " ++ dq ++ "rm" ++ dq ++ "}")%string.

Definition not_json : exn :=
  Exn "JSONDecodeError" "Expecting value: line 1 column 1 (char 0)".

Definition ok_result : tool_result :=
  ToolResult (Some (VDict [(VStr "ok", VBool true)]))
             (Some [Part "TextContent" (Some "text") None (Some "ok") "type='text'"]).

(** Upper-case letters to lower case, byte by byte. *)
Definition lower_byte (c : ascii) : ascii :=
  let n := nat_of_ascii c in
  if (Nat.leb 65 n && Nat.leb n 90)%bool then ascii_of_nat (n + 32) else c.

Fixpoint lower (s : string) : string :=
  match s with
  | EmptyString => EmptyString
  | String c s' => String (lower_byte c) (lower s')
  end.

(** A host whose model answers [reply] to every request. *)
Definition host_replying (reply : value) : Host := {|
  str_strip := fun s => s;
  str_lower := lower;
  json_loads := fun s =>
    if String.eqb s plan_head then Ret (VDict [(VStr "tool", VStr "tool_head")])
    else if String.eqb s plan_rm then Ret (VDict [(VStr "tool", VStr "rm")])
    else if String.eqb s "[]" then Ret (VList [])
    else if String.eqb s "{}" then Ret (VDict [])
    else Raise not_json;
  json_dumps := fun v =>
    match v with
    | VDict [] => Ret "{}"
    | VDict _ => Ret "{...}"
    | VPeriod _ _ => Raise (Exn "TypeError" "Object of type Period is not JSON serializable")
    | _ => Ret "..."
    end;
  http_post := fun _ _ => Ret reply;
  call_tool := fun _ _ => Ret ok_result;
  session_close := Ret tt
|}.

(** The reply of the model whose text is [s]. *)
Definition reply_with (s : string) : value :=
  VDict [(VStr "message", VDict [(VStr "role", VStr "assistant"); (VStr "content", VStr s)])].

Definition host : Host := host_replying (reply_with plan_head).

Definition tool_names : list string := ["tool_load_data"; "tool_head"; "tool_summary"].

(** A result whose only part is an image. *)
Definition image_result : tool_result :=
  ToolResult None (Some [Part "ImageContent" (Some "image") None None "type='image'"]).

(** A result whose structured content [json.dumps] refuses, with one
    text part. *)
Definition period_result : tool_result :=
  ToolResult (Some (VPeriod "M" 10))
             (Some [Part "TextContent" (Some "text") None (Some "2021-01") "type='text'"]).

(** A part of type ["json"] that has no [data]. *)
Definition json_without_data : part :=
  Part "EmbeddedResource" (Some "json") None None "type='json'".

End Desk.

(** * Properties *)

(** ** Running the monad *)

Lemma bind_Ret {A B} (m : M A) (k : A -> M B) w a w' :
  m w = (Ret a, w') -> bind m k w = k a w'.
Proof. intros H. unfold bind. now rewrite H. Qed.

Lemma bind_Raise {A B} (m : M A) (k : A -> M B) w e w' :
  m w = (Raise e, w') -> bind m k w = (Raise e, w').
Proof. intros H. unfold bind. now rewrite H. Qed.

Lemma try_Ret {A} (m : M A) h w a w' :
  m w = (Ret a, w') -> try_except m h w = (Ret a, w').
Proof. intros H. unfold try_except. now rewrite H. Qed.

Lemma try_Raise {A} (m : M A) h w e w' :
  m w = (Raise e, w') -> try_except m h w = h e w'.
Proof. intros H. unfold try_except. now rewrite H. Qed.

(** ** Computations that leave STATE alone *)

Lemma keeps_ret {A} (a : A) : keeps_STATE (ret a).
Proof. now intros w. Qed.

Lemma keeps_raise {A} (e : exn) : keeps_STATE (@raise A e).
Proof. now intros w. Qed.

Lemma keeps_call {A} ev (r : outcome A) : keeps_STATE (call ev r).
Proof. now intros w. Qed.

Lemma keeps_of_outcome {A} (r : outcome A) : keeps_STATE (of_outcome r).
Proof. now intros w. Qed.

Lemma keeps_read : keeps_STATE read_STATE.
Proof. now intros w. Qed.

Lemma keeps_bind {A B} (m : M A) (k : A -> M B) :
  keeps_STATE m -> (forall a, keeps_STATE (k a)) -> keeps_STATE (bind m k).
Proof.
  intros Hm Hk w. unfold bind.
  specialize (Hm w). destruct (m w) as [[a|e] w1]; cbn in *.
  - now rewrite Hk.
  - exact Hm.
Qed.

Lemma keeps_try {A} (m : M A) (h : exn -> M A) :
  keeps_STATE m -> (forall e, keeps_STATE (h e)) -> keeps_STATE (try_except m h).
Proof.
  intros Hm Hh w. unfold try_except.
  specialize (Hm w). destruct (m w) as [[a|e] w1]; cbn in *.
  - exact Hm.
  - now rewrite Hh.
Qed.

Create HintDb frame.
#[export] Hint Resolve keeps_ret keeps_raise keeps_call keeps_of_outcome keeps_read : frame.

(** Peels binds, handlers and case analyses off a goal [keeps_STATE m]. *)
Ltac frame :=
  repeat first
    [ progress auto with frame
    | apply keeps_bind; [ | intro ]
    | apply keeps_try; [ | intro ]
    | match goal with
      | |- keeps_STATE (match ?x with _ => _ end) => destruct x
      | |- keeps_STATE (let (_, _) := ?x in _) => destruct x
      end ].

Section Frame.

Variable env : Env.

Lemma keeps_top_categories_loop d n cols :
  forall out, keeps_STATE (tools_core.top_categories_loop env d n cols out).
Proof.
  induction cols as [|c cols IH]; intro out; cbn.
  - frame.
  - apply keeps_bind; [ unfold tools_core.top_categories_step; frame | auto ].
Qed.

Lemma keeps_scatter_pairs_loop d pairs :
  forall rendered, keeps_STATE (tools_core.scatter_pairs_loop env d pairs rendered).
Proof.
  induction pairs as [|xy pairs IH]; intro rendered; cbn.
  - frame.
  - apply keeps_bind; [ unfold tools_core.scatter_pairs_step; frame | auto ].
Qed.

Lemma keeps_readers c :
  match c with Load_data _ | Set_schema _ => True | _ => keeps_STATE (run env c) end.
Proof.
  destruct c; cbn; trivial;
    unfold tools_core.get_schema, tools_core.summary, tools_core.head,
      tools_core.top_categories, tools_core.correlations, tools_core.scatter_pairs,
      tools_core.outliers, tools_core.missing, tools_core.plot_hist,
      tools_core.plot_xy, tools_core.time_trend, tools_core.to_numeric_int;
    apply keeps_bind; auto with frame; intro st; destruct (df st); frame;
    auto using keeps_top_categories_loop, keeps_scatter_pairs_loop.
Qed.

End Frame.

(** ** The shared precondition *)

Section Precondition.

Variable env : Env.

(** C1.  A tool that works on the table, called while [STATE["df"]] is
    [None], returns [{"ok": False, "error": "no_dataset_loaded"}]
    whatever the tool and its arguments are, and the world comes back as
    it was: nothing was written and the environment was not called. *)
Theorem no_dataset_loaded_first (c : tool_call) (w : World) :
  requiresDataset c = true ->
  df (state w) = None ->
  run env c w = (Ret tools_core.no_dataset_loaded, w).
Proof.
  intros Hreq Hdf.
  destruct c; try discriminate Hreq; cbn;
    unfold tools_core.summary, tools_core.head, tools_core.top_categories,
      tools_core.correlations, tools_core.scatter_pairs, tools_core.outliers,
      tools_core.missing, tools_core.plot_hist, tools_core.plot_xy,
      tools_core.time_trend, bind, read_STATE;
    now rewrite Hdf.
Qed.

End Precondition.

(** C1 at the start of a session, for [time_trend]. *)
Lemma no_dataset_loaded_first_witness :
  run Sample.desktop (Time_trend "year" "M") World0
  = (Ret tools_core.no_dataset_loaded, World0).
Proof.
  apply (no_dataset_loaded_first Sample.desktop (Time_trend "year" "M") World0);
    reflexivity.
Defined.

(** ** Frame conditions on STATE *)

Section StateDiscipline.

Variable env : Env.

(** C10.  [set_schema] writes the schema slot only, [load_data] never
    touches the schema slot, and every other tool leaves the three
    slots of [STATE] as they were. *)
Theorem STATE_frame (c : tool_call) (w : World) :
  let s := state w in
  let s' := state (snd (run env c w)) in
  match c with
  | Set_schema sc => df s' = df s /\ name s' = name s /\ schema s' = Some sc
  | Load_data _ => schema s' = schema s
  | _ => s' = s
  end.
Proof.
  destruct c; cbn zeta;
    try exact (keeps_readers env Get_schema w);
    try (match goal with
         | |- state (snd (run env ?c w)) = state w => exact (keeps_readers env c w)
         end).
  - (* load_data *)
    cbn. unfold tools_core.load_data, tools_core.load_data_try.
    destruct path as [p|]; [ | unfold bind at 1, call at 1;
                               destruct (path_exists env "dataset.csv") as [[|]|e] ];
      try reflexivity;
      unfold try_except, bind, call, write_df, write_name, read_STATE, ret;
      cbn; destruct (read_csv env _); reflexivity.
  - (* set_schema *)
    cbn. repeat split.
Qed.

End StateDiscipline.

(** ** Loading *)

Section Loading.

Variable env : Env.

(** What [head] returns depends on the world through [STATE] only. *)
Lemma head_reads_STATE (n : Z) (w1 w2 : World) :
  state w1 = state w2 ->
  fst (tools_core.head env n w1) = fst (tools_core.head env n w2).
Proof.
  intros H. unfold tools_core.head, bind, read_STATE, call, ret. rewrite H.
  destruct (df (state w2)); cbn; [ destruct (head_records env _ _) | ]; reflexivity.
Qed.

(** Without a path and without [dataset.csv], [load_data] returns its
    sentinel and [STATE] is untouched. *)
Lemma load_data_no_path (w : World) :
  path_exists env "dataset.csv" = Ret false ->
  fst (tools_core.load_data env None w)
  = Ret (tools_core.failure "no_path_provided_and_dataset.csv_not_found") /\
  state (snd (tools_core.load_data env None w)) = state w.
Proof.
  intros H. unfold tools_core.load_data, bind, call. rewrite H. now split.
Qed.

(** C2.  [load_data] on the path [p] it settles on (the one given, or
    [dataset.csv] when none is given and that file exists): if
    [read_csv] raises, the result is [ok: False] with
    [load_failed:<class>:<message>], [STATE] is exactly as before and
    [head] answers as before; if [read_csv] returns a table, the table
    and name slots are replaced together and the schema slot is kept. *)
Theorem load_data_atomic (path : option string) (p : string) (w : World) :
  path = Some p \/
  (path = None /\ path_exists env "dataset.csv" = Ret true /\ p = "dataset.csv") ->
  match read_csv env p with
  | Raise e =>
      fst (tools_core.load_data env path w)
      = Ret (tools_core.failure ("load_failed:" ++ cls e ++ ":" ++ msg e)) /\
      state (snd (tools_core.load_data env path w)) = state w /\
      forall n, fst (tools_core.head env n (snd (tools_core.load_data env path w)))
                = fst (tools_core.head env n w)
  | Ret d =>
      fst (tools_core.load_data env path w)
      = Ret [("ok", VBool true);
             ("dataset", VStr (path_name env p));
             ("rows", VInt (len d));
             ("cols", VInt (ncols d));
             ("columns", VList (map VStr (column_names d)))] /\
      state (snd (tools_core.load_data env path w))
      = State (Some d) (Some (path_name env p)) (schema (state w))
  end.
Proof.
  intros Hp.
  assert (Hrun : exists w0,
             state w0 = state w /\
             tools_core.load_data env path w = tools_core.load_data_try env p w0).
  { unfold tools_core.load_data.
    destruct Hp as [-> | (-> & Hex & ->)].
    - now exists w.
    - unfold bind, call. rewrite Hex. eexists. split; [ | reflexivity ]. reflexivity. }
  destruct Hrun as (w0 & Hw0 & ->). rewrite <- Hw0.
  unfold tools_core.load_data_try, try_except, bind, call, write_df, write_name,
    read_STATE, ret.
  destruct (read_csv env p) as [d|e].
  - split; reflexivity.
  - split; [ reflexivity | split; [ reflexivity | ] ].
    intro n. apply head_reads_STATE. cbn. now rewrite Hw0.
Qed.

End Loading.

(** C2 on the sample session: after [sales.csv], loading a path that
    does not exist fails and [head] still shows the sales table. *)
Lemma load_data_atomic_witness :
  fst (tools_core.load_data Sample.desktop (Some "nowhere.csv") Sample.loaded)
  = Ret (tools_core.failure
           "load_failed:FileNotFoundError:[Errno 2] No such file or directory: 'nowhere.csv'")
  /\ state (snd (tools_core.load_data Sample.desktop (Some "nowhere.csv") Sample.loaded))
     = state Sample.loaded
  /\ forall n,
       fst (tools_core.head Sample.desktop n
              (snd (tools_core.load_data Sample.desktop (Some "nowhere.csv") Sample.loaded)))
       = fst (tools_core.head Sample.desktop n Sample.loaded).
Proof.
  exact (load_data_atomic Sample.desktop (Some "nowhere.csv") "nowhere.csv" Sample.loaded
           (or_introl eq_refl)).
Defined.

(** ** Where exceptions are caught, and where they are not *)

Lemma never_ret {A} (a : A) : never_raises (ret a).
Proof. intros w. now exists a. Qed.

Lemma never_read : never_raises read_STATE.
Proof. intros w. now exists (state w). Qed.

Lemma never_bind {A B} (m : M A) (k : A -> M B) :
  never_raises m -> (forall a, never_raises (k a)) -> never_raises (bind m k).
Proof.
  intros Hm Hk w. unfold bind. destruct (Hm w) as [a Ha].
  destruct (m w) as [[a'|e] w1]; cbn in Ha; [ apply Hk | discriminate ].
Qed.

Lemma never_try {A} (m : M A) (h : exn -> M A) :
  (forall e, never_raises (h e)) -> never_raises (try_except m h).
Proof.
  intros Hh w. unfold try_except.
  destruct (m w) as [[a|e] w1]; [ now exists a | apply Hh ].
Qed.

Create HintDb caught.
#[export] Hint Resolve never_ret never_read : caught.

Ltac caught :=
  repeat first
    [ progress auto with caught
    | apply never_try; intro
    | apply never_bind; [ | intro ]
    | match goal with
      | |- never_raises (match ?x with _ => _ end) => destruct x
      | |- never_raises (let (_, _) := ?x in _) => destruct x
      end ].

Section Exceptions.

Variable env : Env.

Lemma never_top_categories_loop d n cols :
  forall out, never_raises (tools_core.top_categories_loop env d n cols out).
Proof.
  induction cols as [|c cols IH]; intro out; cbn.
  - caught.
  - apply never_bind; [ unfold tools_core.top_categories_step; caught | auto ].
Qed.

Lemma never_scatter_pairs_loop d pairs :
  forall rendered, never_raises (tools_core.scatter_pairs_loop env d pairs rendered).
Proof.
  induction pairs as [|xy pairs IH]; intro rendered; cbn.
  - caught.
  - apply never_bind; [ unfold tools_core.scatter_pairs_step; caught | auto ].
Qed.

(** The tools whose every call into the environment sits inside a
    [try] block with a returning handler: no exception leaves them.
    ([load_data] without a path asks whether [dataset.csv] exists
    before its [try] block.) *)
Lemma guarded_tools_never_raise (c : tool_call) :
  match c with
  | Head _ | Missing _ | Time_trend _ _ | Load_data None => True
  | _ => never_raises (run env c)
  end.
Proof.
  destruct c as [[p|]| | | | | | | | | | | |]; cbn; trivial;
    unfold tools_core.load_data, tools_core.load_data_try, tools_core.set_schema,
      tools_core.get_schema, tools_core.summary, tools_core.top_categories,
      tools_core.correlations, tools_core.scatter_pairs, tools_core.outliers,
      tools_core.plot_hist, tools_core.plot_xy;
    caught;
    auto using never_top_categories_loop, never_scatter_pairs_loop.
  intros w. now exists tt.
Qed.

(** C3.  [time_trend] looks the column up before its [try] block
    starts: with a table loaded and a column the table does not have,
    the [KeyError] of [df[column]] leaves the tool uncaught. *)
Theorem time_trend_unknown_column_raises (column freq : string) (w : World) (d : DataFrame) :
  df (state w) = Some d ->
  find_column column (columns d) = None ->
  tools_core.time_trend env column freq w = (Raise (KeyError env column), w).
Proof.
  intros Hdf Hcol.
  unfold tools_core.time_trend, bind, read_STATE, of_outcome, getitem.
  now rewrite Hdf, Hcol.
Qed.

(** [head] and [missing] have no [try] block: what pandas raises
    leaves them as it is. *)
Lemma head_passes_exceptions_on (n : Z) (w : World) (d : DataFrame) (e : exn) :
  df (state w) = Some d ->
  head_records env d n = Raise e ->
  fst (tools_core.head env n w) = Raise e.
Proof.
  intros Hdf He. unfold tools_core.head, bind, read_STATE, call.
  now rewrite Hdf, He.
Qed.

Lemma missing_passes_exceptions_on (t : float) (w : World) (d : DataFrame) (e : exn) :
  df (state w) = Some d ->
  missing_fractions env d t = Raise e ->
  fst (tools_core.missing env t w) = Raise e.
Proof.
  intros Hdf He. unfold tools_core.missing, bind, read_STATE, call.
  now rewrite Hdf, He.
Qed.

End Exceptions.

(** C3 on the sample session: the sales table has no [price] column. *)
Lemma time_trend_unknown_column_raises_witness :
  tools_core.time_trend Sample.desktop "price" "M" Sample.loaded
  = (Raise (Exn "KeyError" "'price'"), Sample.loaded).
Proof.
  apply (time_trend_unknown_column_raises Sample.desktop "price" "M"
           Sample.loaded Sample.sales); reflexivity.
Defined.

(** ** The text of the error tags *)

Lemma length_append (s t : string) :
  String.length (s ++ t) = (String.length s + String.length t)%nat.
Proof. induction s as [|a s IH]; cbn; [ reflexivity | now rewrite IH ]. Qed.

Section ErrorTags.

Variable env : Env.

(** C4.  When the correlation computation raises, the returned error
    is ["correlation_failed:"] followed by the message alone: the class
    name of the exception is not in it, so it is not the string
    ["correlation_failed:<class>:<message>"]. *)
Theorem correlation_error_omits_class
  (cols : option (list string)) (method : string) (w : World) (d : DataFrame) (e : exn) :
  df (state w) = Some d ->
  corr env d cols method = Raise e ->
  fst (tools_core.correlations env cols method w)
  = Ret (tools_core.failure ("correlation_failed:" ++ msg e)) /\
  "correlation_failed:" ++ msg e <> "correlation_failed:" ++ cls e ++ ":" ++ msg e.
Proof.
  intros Hdf He. split.
  - unfold tools_core.correlations, bind, read_STATE, try_except, call.
    now rewrite Hdf, He.
  - intro Heq. apply (f_equal String.length) in Heq.
    rewrite !length_append in Heq. cbn in Heq. lia.
Qed.

(** The handlers of the table-reading tools, side by side: [summary]
    names the class, the others print the message only ([outliers]
    fails when a requested label is not a column). *)
Lemma summary_error_names_class (b : bool) (w : World) (d : DataFrame) (e : exn) :
  df (state w) = Some d ->
  describe env d b = Raise e ->
  fst (tools_core.summary env b w)
  = Ret (tools_core.failure ("summary_failed:" ++ cls e ++ ":" ++ msg e)).
Proof.
  intros Hdf He. unfold tools_core.summary, bind, read_STATE, try_except, call.
  now rewrite Hdf, He.
Qed.

Lemma outlier_error_omits_class (cols : list string) (z : float) (w : World)
  (d : DataFrame) (e : exn) :
  df (state w) = Some d ->
  tools_core.getitem_list env d cols = Raise e ->
  fst (tools_core.outliers env cols z w)
  = Ret (tools_core.failure ("outlier_failed:" ++ msg e)).
Proof.
  intros Hdf He. unfold tools_core.outliers, bind, read_STATE, try_except, of_outcome.
  now rewrite Hdf, He.
Qed.

End ErrorTags.

(** C4 on the sample session: a [ValueError] of [corr]. *)
Lemma correlation_error_omits_class_witness :
  fst (tools_core.correlations Sample.desktop (Some ["region"]) "pearson" Sample.loaded)
  = Ret [("ok", VBool false);
         ("error", VStr "correlation_failed:could not convert string to float: 'north'")].
Proof.
  exact (proj1 (correlation_error_omits_class Sample.desktop (Some ["region"]) "pearson"
                  Sample.loaded Sample.sales
                  (Exn "ValueError" "could not convert string to float: 'north'")
                  eq_refl eq_refl)).
Defined.

(** ** The public surface *)

Section Surface.

Variable env : Env.

(** C8.  The wrapper [tool_load_data(path)] gives [path] no default:
    called without it, the call is refused with a [TypeError] and
    [load_data] is not reached, so there is no fall-back to
    [dataset.csv] at this surface. *)
Theorem tool_load_data_requires_path (w : World) :
  server.tool_load_data env Omitted w
  = (Raise (Exn "TypeError"
              "tool_load_data() missing 1 required positional argument: 'path'"), w).
Proof. reflexivity. Qed.

(** With an explicit [None] the wrapper reaches the fall-back of
    [load_data]. *)
Lemma tool_load_data_None (w : World) :
  path_exists env "dataset.csv" = Ret false ->
  fst (server.tool_load_data env (Given None) w)
  = Ret (tools_core.failure "no_path_provided_and_dataset.csv_not_found").
Proof. intros H. apply load_data_no_path, H. Qed.

End Surface.

(** ** The shape of every result *)

Lemma returns_ret {A} (P : A -> Prop) (a : A) : P a -> returns P (ret a).
Proof. intros H w a' Ha. cbn in Ha. now injection Ha as <-. Qed.

Lemma returns_raise {A} (P : A -> Prop) (e : exn) : returns P (raise e).
Proof. intros w a Ha. discriminate Ha. Qed.

Lemma returns_bind {A B} (P : B -> Prop) (m : M A) (k : A -> M B) :
  (forall a, returns P (k a)) -> returns P (bind m k).
Proof.
  intros Hk w b. unfold bind.
  destruct (m w) as [[a|e] w1]; [ apply Hk | discriminate ].
Qed.

Lemma returns_try {A} (P : A -> Prop) (m : M A) (h : exn -> M A) :
  returns P m -> (forall e, returns P (h e)) -> returns P (try_except m h).
Proof.
  intros Hm Hh w a. unfold try_except.
  specialize (Hm w). destruct (m w) as [[a'|e] w1]; [ exact (Hm a) | apply Hh ].
Qed.

Ltac shape :=
  repeat first
    [ apply returns_ret; first [ reflexivity | now left | now right ]
    | apply returns_raise
    | apply returns_try; [ | intro ]
    | apply returns_bind; intro
    | match goal with
      | |- returns _ (match ?x with _ => _ end) => destruct x
      | |- returns _ (let (_, _) := ?x in _) => destruct x
      end ].

Section Contract.

Variable env : Env.

(** Every tool but [get_schema], [plot_hist] and [plot_xy] returns
    well-formed results only. *)
Lemma tools_return_well_formed (c : tool_call) :
  c <> Get_schema -> is_plot c = false ->
  returns (fun r => well_formed r = true) (run env c).
Proof.
  intros Hc Hp. destruct c; try congruence; try discriminate Hp; cbn;
    unfold tools_core.load_data, tools_core.load_data_try, tools_core.set_schema,
      tools_core.summary, tools_core.head, tools_core.top_categories,
      tools_core.correlations,
      tools_core.scatter_pairs, tools_core.outliers, tools_core.missing,
      tools_core.time_trend;
    shape.
Qed.

(** [plot_hist] and [plot_xy] return a well-formed failure or the bare
    [{"ok": True}]. *)
Lemma plots_return_bare_ok (c : tool_call) :
  is_plot c = true ->
  returns (fun r => well_formed r = true \/ r = [("ok", VBool true)]) (run env c).
Proof.
  intros Hp. destruct c; try discriminate Hp; cbn;
    unfold tools_core.plot_hist, tools_core.plot_xy;
    shape.
Qed.

(** C5, as the code has it.  A returned result holds an [ok] boolean;
    with [ok: False] its only other key is [error] with a string, and
    with [ok: True] it has no [error] key and at least one payload key.
    The exceptions are [get_schema] before any [set_schema], which
    returns [{"ok": False, "schema": None}], and [plot_hist] and
    [plot_xy], whose success is the bare [{"ok": True}]. *)
Theorem results_well_formed (c : tool_call) (w : World) (r : Result) :
  fst (run env c w) = Ret r ->
  well_formed r = true \/
  (c = Get_schema /\ schema (state w) = None /\
   r = [("ok", VBool false); ("schema", VNone)]) \/
  (is_plot c = true /\ r = [("ok", VBool true)]).
Proof.
  intros Hr.
  assert (Hc : c = Get_schema \/ c <> Get_schema)
    by (destruct c; first [ now left | now right ]).
  destruct Hc as [-> | Hc].
  - cbn in Hr. injection Hr as <-.
    destruct (schema (state w)); [ left; reflexivity | right; left; now repeat split ].
  - destruct (is_plot c) eqn:Hp.
    + destruct (plots_return_bare_ok c Hp w r Hr) as [H | H];
        [ now left | right; right; now split ].
    + left. exact (tools_return_well_formed c Hc Hp w r Hr).
Qed.

End Contract.

(** C5 as stated fails twice.  [get_schema] in a fresh session answers
    [ok: False] and there is no [error] key in its result; [plot_hist]
    on the desktop answers [ok: True] and nothing else, so no payload
    is present. *)
Lemma results_not_all_well_formed :
  (exists r,
     fst (run Sample.desktop Get_schema World0) = Ret r /\
     lookup "ok" r = Some (VBool false) /\
     lookup "error" r = None /\
     well_formed r = false) /\
  (exists r,
     fst (run Sample.desktop (Plot_hist "year" 30) Sample.loaded) = Ret r /\
     r = [("ok", VBool true)] /\
     well_formed r = false).
Proof.
  split.
  - exists [("ok", VBool false); ("schema", VNone)]. repeat split.
  - exists [("ok", VBool true)]. repeat split.
Qed.

(** The amended C5 on a failing [plot_hist] of the headless machine. *)
Lemma results_well_formed_witness :
  well_formed [("ok", VBool false);
               ("error", VStr "plot_hist_failed:no renderer available")] = true
  \/ (Plot_hist "year" 30 = Get_schema /\ schema (state Sample.loaded) = None /\
      [("ok", VBool false); ("error", VStr "plot_hist_failed:no renderer available")]
      = [("ok", VBool false); ("schema", VNone)])
  \/ (is_plot (Plot_hist "year" 30) = true /\
      [("ok", VBool false); ("error", VStr "plot_hist_failed:no renderer available")]
      = [("ok", VBool true)]).
Proof.
  apply (results_well_formed Sample.headless (Plot_hist "year" 30) Sample.loaded).
  reflexivity.
Defined.

(** ** Counting and ordering *)

Section Counting.

Lemma insert_row_perm leb r t : Permutation (insert_row leb r t) (r :: t).
Proof.
  induction t as [|r' t IH]; cbn; [ reflexivity | ].
  destruct (leb r r'); [ reflexivity | ].
  rewrite IH. apply perm_swap.
Qed.

Lemma sort_rows_perm leb t : Permutation (sort_rows leb t) t.
Proof.
  induction t as [|r t IH]; cbn; [ reflexivity | ].
  rewrite insert_row_perm. now constructor.
Qed.

Lemma insert_row_ascending r t :
  ascending t -> ascending (insert_row (fun a b => Z.leb (fst a) (fst b)) r t).
Proof.
  unfold ascending. induction t as [|r' t IH]; cbn; intro Ht.
  - repeat constructor.
  - apply StronglySorted_inv in Ht as [Ht Hall].
    destruct (Z.leb_spec (fst r) (fst r')) as [Hle|Hgt].
    + constructor; [ now constructor | ].
      constructor; [ exact Hle | ].
      eapply Forall_impl; [ | exact Hall ]. cbn. intros; lia.
    + constructor; [ now apply IH | ].
      eapply Permutation_Forall; [ symmetry; apply insert_row_perm | ].
      constructor; [ lia | exact Hall ].
Qed.

Lemma sort_index_ascending t : ascending (sort_index t).
Proof.
  unfold sort_index, sort_rows. induction t as [|r t IH]; cbn.
  - constructor.
  - now apply insert_row_ascending.
Qed.

Lemma bump_index k k' t :
  In k' (map fst (bump k t)) -> k' = k \/ In k' (map fst t).
Proof.
  induction t as [|[k0 n] t IH]; cbn.
  - intuition.
  - destruct (Z.eqb_spec k k0) as [->|Hne]; cbn; intuition.
Qed.

Lemma bump_NoDup k t : NoDup (map fst t) -> NoDup (map fst (bump k t)).
Proof.
  induction t as [|[k0 n] t IH]; cbn; intro Hnd.
  - repeat constructor. intros [].
  - apply NoDup_cons_iff in Hnd as [Hin Hnd].
    destruct (Z.eqb_spec k k0) as [->|Hne]; cbn.
    + now constructor.
    + constructor; [ | now apply IH ].
      intro H. apply bump_index in H as [->|H]; [ now apply Hne | now apply Hin ].
Qed.

Lemma tally_NoDup l : NoDup (map fst (tally l)).
Proof.
  unfold tally.
  assert (H : forall t, NoDup (map fst t) ->
                        NoDup (map fst (fold_left (fun t k => bump k t) l t))).
  { induction l as [|k l IH]; cbn; intros t Ht; [ exact Ht | ].
    apply IH. now apply bump_NoDup. }
  apply H. constructor.
Qed.

(** An index without repeats in ascending order is strictly ascending. *)
Lemma ascending_NoDup_strict t :
  ascending t -> NoDup (map fst t) -> StronglySorted Z.lt (map fst t).
Proof.
  unfold ascending. induction t as [|r t IH]; cbn; intros Hs Hnd.
  - constructor.
  - apply StronglySorted_inv in Hs as [Hs Hall].
    apply NoDup_cons_iff in Hnd as [Hin Hnd].
    constructor; [ now apply IH | ].
    apply Forall_forall. intros k Hk.
    apply in_map_iff in Hk as (r' & <- & Hr').
    rewrite Forall_forall in Hall. specialize (Hall r' Hr').
    assert (fst r <> fst r') by (intros Heq; apply Hin; rewrite Heq; now apply in_map).
    lia.
Qed.

(** [value_counts().sort_index()] has a strictly ascending index. *)
Lemma counts_by_index_sorted (l : list Z) :
  StronglySorted Z.lt (map fst (sort_index (value_counts l))).
Proof.
  apply ascending_NoDup_strict; [ apply sort_index_ascending | ].
  eapply Permutation_NoDup; [ | apply tally_NoDup ].
  apply Permutation_map. symmetry.
  unfold sort_index, value_counts.
  etransitivity; apply sort_rows_perm.
Qed.

(** The index of the counts is made of the values that occur. *)
Lemma bump_index_iff k k' t :
  In k' (map fst (bump k t)) <-> k' = k \/ In k' (map fst t).
Proof.
  split; [ apply bump_index | ].
  induction t as [|[k0 n] t IH]; cbn.
  - intuition.
  - destruct (Z.eqb_spec k k0) as [->|Hne]; cbn; intuition.
Qed.

Lemma counts_index_complete (l : list Z) (k : Z) :
  In k (map fst (sort_index (value_counts l))) <-> In k l.
Proof.
  assert (Htally : forall t, In k (map fst (fold_left (fun t k => bump k t) l t))
                             <-> In k l \/ In k (map fst t)).
  { induction l as [|a l IH]; cbn; intro t; [ tauto | ].
    rewrite IH, bump_index_iff. split; intros H.
    - destruct H as [H|[H|H]]; auto.
    - destruct H as [[H|H]|H]; subst; auto. }
  assert (Hperm : Permutation (map fst (sort_index (value_counts l))) (map fst (tally l))).
  { apply Permutation_map. unfold sort_index, value_counts.
    etransitivity; apply sort_rows_perm. }
  split; intro H.
  - apply (Permutation_in _ Hperm) in H. apply Htally in H as [H|[]]. exact H.
  - apply (Permutation_in _ (Permutation_sym Hperm)). apply Htally. now left.
Qed.

Example value_counts_most_frequent_first :
  value_counts [2021; 2020; 2021; 2019] = [(2021, 2); (2020, 1); (2019, 1)].
Proof. reflexivity. Qed.

End Counting.

(** ** Time trends *)

Section TimeTrend.

Variable env : Env.

(** The keys of [grp.to_dict()] keep the order of the index. *)
Lemma trend_dict_keys_sorted (key : Z -> value) (grp : list (Z * Z)) :
  (forall x y, x < y -> key_lt (key x) (key y)) ->
  StronglySorted Z.lt (map fst grp) ->
  StronglySorted key_lt (map fst (tools_core.trend_dict key grp)).
Proof.
  intros Hkey. unfold tools_core.trend_dict.
  induction grp as [|r grp IH]; cbn; intro Hs; [ constructor | ].
  apply StronglySorted_inv in Hs as [Hs Hall].
  constructor; [ now apply IH | ].
  rewrite map_map. cbn. apply Forall_map.
  rewrite Forall_map in Hall.
  eapply Forall_impl; [ | exact Hall ]. intros r'. apply Hkey.
Qed.

(** C7, as the code has it.  With a table in [STATE], [time_trend] on
    a datetime column and on an integer column returns in both cases
    [{"ok": True, "type": ..., "trend": ...}], provided the line chart
    is drawn without error and, for the datetime column, pandas can
    form the periods for [freq]: the type is ["datetime"] in the first
    case and ["year-int"] in the second, and the trend is the count of
    each period, resp. of each integer cast to [int64], with its keys
    in strictly ascending order. *)
Theorem time_trend_sorted_trend (column freq : string) (w : World) (d : DataFrame) :
  df (state w) = Some d ->
  (forall l label periods,
     getitem env d column = Ret (SDatetime l) ->
     to_period env freq (dropna l) = Ret (label, periods) ->
     let trend := tools_core.trend_dict (VPeriod label) (sort_index (value_counts periods)) in
     show env (tools_core.line_chart column ("Count by " ++ freq ++ ": " ++ column) trend)
     = Ret tt ->
     fst (tools_core.time_trend env column freq w)
     = Ret [("ok", VBool true); ("type", VStr "datetime"); ("trend", VDict trend)] /\
     StronglySorted key_lt (map fst trend)) /\
  (forall l,
     getitem env d column = Ret (SInt l) ->
     let trend :=
       tools_core.trend_dict VInt (sort_index (value_counts (map astype_int l))) in
     show env (tools_core.line_chart column ("Count by Year: " ++ column) trend) = Ret tt ->
     fst (tools_core.time_trend env column freq w)
     = Ret [("ok", VBool true); ("type", VStr "year-int"); ("trend", VDict trend)] /\
     StronglySorted key_lt (map fst trend)).
Proof.
  intros Hdf. split.
  - intros l label periods Hcol Hper trend Hshow. split.
    + unfold tools_core.time_trend, bind, read_STATE, of_outcome, try_except, call, ret.
      rewrite Hdf, Hcol, Hper. cbv beta iota zeta. cbn [fst snd]. fold trend.
      now rewrite Hshow.
    + apply trend_dict_keys_sorted; [ | apply counts_by_index_sorted ].
      intros x y Hxy. now split.
  - intros l Hcol trend Hshow. split.
    + unfold tools_core.time_trend, tools_core.to_numeric_int,
        bind, read_STATE, of_outcome, try_except, call, ret.
      rewrite Hdf, Hcol. cbv beta iota zeta. fold trend. now rewrite Hshow.
    + apply trend_dict_keys_sorted; [ | apply counts_by_index_sorted ].
      intros x y Hxy. exact Hxy.
Qed.

End TimeTrend.

(** C7 as stated fails: with the sales table loaded, [time_trend] on
    the integer column [year] of the headless machine counts the years
    and then fails to draw the chart, and what it returns has neither
    a [type] nor a [trend]; on the desktop, a frequency pandas does not
    know gives the same shape for the datetime column [sold_on]. *)
Lemma time_trend_without_trend :
  (exists r,
     fst (tools_core.time_trend Sample.headless "year" "Y" Sample.loaded) = Ret r /\
     lookup "ok" r = Some (VBool false) /\
     lookup "type" r = None /\
     lookup "trend" r = None) /\
  fst (tools_core.time_trend Sample.desktop "sold_on" "fortnight" Sample.loaded)
  = Ret [("ok", VBool false);
         ("error", VStr "time_trend_failed:Invalid frequency: fortnight")].
Proof.
  split; [ | reflexivity ].
  exists [("ok", VBool false); ("error", VStr "time_trend_failed:no renderer available")].
  repeat split.
Qed.

(** The amended C7 on the sample session: the [sold_on] and [year]
    columns on the desktop. *)
Lemma time_trend_sorted_trend_witness :
  (fst (tools_core.time_trend Sample.desktop "sold_on" "M" Sample.loaded)
   = Ret [("ok", VBool true);
          ("type", VStr "datetime");
          ("trend", VDict [(VPeriod "M" 10, VInt 1); (VPeriod "M" 30, VInt 2)])] /\
   StronglySorted key_lt [VPeriod "M" 10; VPeriod "M" 30]) /\
  (fst (tools_core.time_trend Sample.desktop "year" "M" Sample.loaded)
   = Ret [("ok", VBool true);
          ("type", VStr "year-int");
          ("trend", VDict [(VInt 2019, VInt 1); (VInt 2020, VInt 1); (VInt 2021, VInt 2)])] /\
   StronglySorted key_lt [VInt 2019; VInt 2020; VInt 2021]).
Proof.
  split.
  - exact (proj1 (time_trend_sorted_trend Sample.desktop "sold_on" "M" Sample.loaded
                    Sample.sales eq_refl)
             [Some 30; Some 10; None; Some 30] "M" [30; 10; 30] eq_refl eq_refl eq_refl).
  - exact (proj2 (time_trend_sorted_trend Sample.desktop "year" "M" Sample.loaded
                    Sample.sales eq_refl)
             [2021; 2020; 2021; 2019] eq_refl eq_refl).
Defined.

(** The two trends of the sample session, evaluated. *)
Example sample_trend_datetime :
  fst (tools_core.time_trend Sample.desktop "sold_on" "M" Sample.loaded)
  = Ret [("ok", VBool true);
         ("type", VStr "datetime");
         ("trend", VDict [(VPeriod "M" 10, VInt 1); (VPeriod "M" 30, VInt 2)])].
Proof. reflexivity. Qed.

Example sample_trend_year :
  fst (tools_core.time_trend Sample.desktop "year" "M" Sample.loaded)
  = Ret [("ok", VBool true);
         ("type", VStr "year-int");
         ("trend", VDict [(VInt 2019, VInt 1); (VInt 2020, VInt 1); (VInt 2021, VInt 2)])].
Proof. reflexivity. Qed.

(** A yearly trend carries the frequency of its periods, not the
    [freq] that was asked for. *)
Example sample_trend_yearly :
  fst (tools_core.time_trend Sample.desktop "sold_on" "Y" Sample.loaded)
  = Ret [("ok", VBool true);
         ("type", VStr "datetime");
         ("trend", VDict [(VPeriod "Y-DEC" 10, VInt 1); (VPeriod "Y-DEC" 30, VInt 2)])].
Proof. reflexivity. Qed.

(** A column of unsigned integers: [2^63] is cast to [-2^63], which
    becomes the first key of the trend. *)
Example astype_int_wraps :
  astype_int (2 ^ 63) = - 2 ^ 63 /\
  sort_index (value_counts (map astype_int [1; 2 ^ 63; 1])) = [(- 2 ^ 63, 1); (1, 2)].
Proof. split; reflexivity. Qed.

(** ** Charts that fail to draw *)

Lemma setitem_twice (d : Result) (k : string) (v1 v2 : value) :
  setitem (setitem d k v1) k v2 = setitem d k v2.
Proof.
  induction d as [|[k' v'] d IH]; cbn.
  - now rewrite String.eqb_refl.
  - destruct (String.eqb k k') eqn:E; cbn; rewrite E; [ reflexivity | now rewrite IH ].
Qed.

Lemma lookup_setitem (d : Result) (k k' : string) (v : value) :
  lookup k (setitem d k' v) = if String.eqb k k' then Some v else lookup k d.
Proof.
  induction d as [|[k0 v0] d IH]; cbn.
  - reflexivity.
  - destruct (String.eqb k' k0) eqn:E0; cbn.
    + apply String.eqb_eq in E0 as <-.
      destruct (String.eqb k k'); reflexivity.
    + rewrite IH. destruct (String.eqb k k0) eqn:E1; [ | reflexivity ].
      apply String.eqb_eq in E1 as ->.
      now rewrite String.eqb_sym, E0.
Qed.

Section Rendering.

Variable env : Env.

Lemma top_categories_step_entry d top_n out c w :
  fst (tools_core.top_categories_step env d top_n out c w)
  = Ret (setitem out c (top_categories_entry env d top_n c)).
Proof.
  unfold tools_core.top_categories_step, top_categories_entry,
    try_except, bind, of_outcome, call, ret.
  destruct (getitem env d c) as [s|e]; cbn; [ | reflexivity ].
  destruct (category_counts env s top_n) as [counts|e]; cbn; [ | reflexivity ].
  destruct (show env _) as [u|e]; cbn; [ reflexivity | ].
  now rewrite setitem_twice.
Qed.

Lemma top_categories_loop_entries d top_n cols :
  forall out w,
    fst (tools_core.top_categories_loop env d top_n cols out w)
    = Ret (fold_left (fun o c => setitem o c (top_categories_entry env d top_n c)) cols out).
Proof.
  induction cols as [|c cols IH]; intros out w; cbn; [ reflexivity | ].
  pose proof (top_categories_step_entry d top_n out c w) as Hstep.
  destruct (tools_core.top_categories_step env d top_n out c w) as [r w1] eqn:E.
  cbn in Hstep. subst r.
  rewrite (bind_Ret _ _ _ _ _ E). apply IH.
Qed.

Lemma lookup_entries (f : string -> value) (cols : list string) :
  forall out c,
    In c cols ->
    lookup c (fold_left (fun o k => setitem o k (f k)) cols out) = Some (f c).
Proof.
  assert (Hout : forall cs out c,
             ~ In c cs ->
             lookup c (fold_left (fun o k => setitem o k (f k)) cs out) = lookup c out).
  { induction cs as [|k cs IH]; intros out c Hc; cbn; [ reflexivity | ].
    rewrite IH by (intro; apply Hc; now right).
    rewrite lookup_setitem.
    destruct (String.eqb_spec c k) as [->|]; [ | reflexivity ].
    exfalso. apply Hc. now left. }
  induction cols as [|k cols IH]; intros out c Hc; cbn; [ destruct Hc | ].
  destruct (in_dec string_dec c cols) as [Hin|Hnin].
  - now apply IH.
  - destruct Hc as [->|Hc]; [ | contradiction ].
    rewrite Hout by assumption.
    now rewrite lookup_setitem, String.eqb_refl.
Qed.

Lemma scatter_pairs_step_entry d rendered xy w :
  fst (tools_core.scatter_pairs_step env d rendered xy w)
  = Ret (rendered ++ [scatter_pairs_entry env d xy])%list.
Proof.
  destruct xy as [x y].
  unfold tools_core.scatter_pairs_step, scatter_pairs_entry, try_except, bind, call, ret.
  cbn [fst snd]. now destruct (show env (tools_core.scatter_chart d x y)).
Qed.

Lemma scatter_pairs_loop_entries d pairs :
  forall rendered w,
    fst (tools_core.scatter_pairs_loop env d pairs rendered w)
    = Ret (rendered ++ map (scatter_pairs_entry env d) pairs)%list.
Proof.
  induction pairs as [|xy pairs IH]; intros rendered w; cbn [tools_core.scatter_pairs_loop map].
  - cbn. now rewrite app_nil_r.
  - pose proof (scatter_pairs_step_entry d rendered xy w) as Hstep.
    destruct (tools_core.scatter_pairs_step env d rendered xy w) as [r w1] eqn:E.
    cbn in Hstep. subst r.
    rewrite (bind_Ret _ _ _ _ _ E), IH, <- app_assoc. reflexivity.
Qed.

(** C9, as the code has it.  With a table loaded, [top_categories] and
    [scatter_pairs] always answer [ok: True]: a chart that fails to
    draw puts its message in the entry of its own column or pair and
    nowhere else.  [plot_hist], [plot_xy] and [time_trend] answer
    [ok: False] with their [_failed:] tag when their chart fails to
    draw; for [time_trend] this is so on each of its paths: a datetime
    column whose periods were formed, an integer column, and a column
    of another dtype whose values were converted. *)
Theorem rendering_failures
  (cols : list string) (top_n : Z) (pairs : list (string * string))
  (column : string) (nbins : Z) (x y freq : string) (w : World) (d : DataFrame) :
  df (state w) = Some d ->
  (exists out,
     fst (tools_core.top_categories env cols top_n w)
     = Ret [("ok", VBool true); ("top_categories", str_dict out)] /\
     forall c s counts,
       In c cols ->
       getitem env d c = Ret s ->
       category_counts env s top_n = Ret counts ->
       lookup c out
       = Some (match show env (tools_core.bar_chart top_n c counts) with
               | Ret _ => VDict counts
               | Raise e => VStr ("error:" ++ msg e)
               end)) /\
  fst (tools_core.scatter_pairs env pairs w)
  = Ret [("ok", VBool true);
         ("pairs_rendered",
          VList (map VStr
                   (map (fun xy =>
                           match show env (tools_core.scatter_chart d (fst xy) (snd xy)) with
                           | Ret _ => fst xy ++ "_vs_" ++ snd xy
                           | Raise e => fst xy ++ "_vs_" ++ snd xy ++ "_error:" ++ msg e
                           end) pairs)))] /\
  (forall e,
     show env (Histogram d column nbins ("Distribution: " ++ column)) = Raise e ->
     fst (tools_core.plot_hist env column nbins w)
     = Ret (tools_core.failure ("plot_hist_failed:" ++ msg e))) /\
  (forall e,
     show env (tools_core.scatter_chart d x y) = Raise e ->
     fst (tools_core.plot_xy env x y w)
     = Ret (tools_core.failure ("plot_xy_failed:" ++ msg e))) /\
  (forall l label periods e,
     getitem env d column = Ret (SDatetime l) ->
     to_period env freq (dropna l) = Ret (label, periods) ->
     show env (tools_core.line_chart column ("Count by " ++ freq ++ ": " ++ column)
                 (tools_core.trend_dict (VPeriod label) (sort_index (value_counts periods))))
     = Raise e ->
     fst (tools_core.time_trend env column freq w)
     = Ret (tools_core.failure ("time_trend_failed:" ++ msg e))) /\
  (forall l e,
     getitem env d column = Ret (SInt l) ->
     show env (tools_core.line_chart column ("Count by Year: " ++ column)
                 (tools_core.trend_dict VInt
                    (sort_index (value_counts (map astype_int l))))) = Raise e ->
     fst (tools_core.time_trend env column freq w)
     = Ret (tools_core.failure ("time_trend_failed:" ++ msg e))) /\
  (forall s ser e,
     getitem env d column = Ret s ->
     (forall l, s <> SDatetime l) ->
     (forall l, s <> SInt l) ->
     coerce_int env s = Ret ser ->
     show env (tools_core.line_chart column ("Count by Year: " ++ column)
                 (tools_core.trend_dict VInt (sort_index (value_counts ser)))) = Raise e ->
     fst (tools_core.time_trend env column freq w)
     = Ret (tools_core.failure ("time_trend_failed:" ++ msg e))).
Proof.
  intros Hdf. repeat split.
  - exists (fold_left (fun o c => setitem o c (top_categories_entry env d top_n c)) cols []).
    split.
    + unfold tools_core.top_categories. unfold bind at 1, read_STATE. rewrite Hdf.
      pose proof (top_categories_loop_entries d top_n cols [] w) as Hloop.
      destruct (tools_core.top_categories_loop env d top_n cols [] w) as [r w1] eqn:E.
      cbn in Hloop. subst r. now rewrite (bind_Ret _ _ _ _ _ E).
    + intros c s counts Hin Hcol Hcounts.
      rewrite (lookup_entries (top_categories_entry env d top_n)) by exact Hin.
      unfold top_categories_entry. rewrite Hcol, Hcounts.
      now destruct (show env _).
  - unfold tools_core.scatter_pairs. unfold bind at 1, read_STATE. rewrite Hdf.
    pose proof (scatter_pairs_loop_entries d pairs [] w) as Hloop.
    destruct (tools_core.scatter_pairs_loop env d pairs [] w) as [r w1] eqn:E.
    cbn in Hloop. subst r. now rewrite (bind_Ret _ _ _ _ _ E).
  - intros e He.
    unfold tools_core.plot_hist, bind, read_STATE, try_except, call, ret.
    rewrite Hdf. cbv beta iota zeta. now rewrite He.
  - intros e He.
    unfold tools_core.plot_xy, bind, read_STATE, try_except, call, ret.
    rewrite Hdf. cbv beta iota zeta. now rewrite He.
  - intros l label periods e Hcol Hper He.
    unfold tools_core.time_trend, bind, read_STATE, of_outcome, try_except, call, ret.
    rewrite Hdf, Hcol, Hper. cbv beta iota zeta. cbn [fst snd]. now rewrite He.
  - intros l e Hcol He.
    unfold tools_core.time_trend, tools_core.to_numeric_int,
      bind, read_STATE, of_outcome, try_except, call, ret.
    rewrite Hdf, Hcol. cbv beta iota zeta. now rewrite He.
  - intros s ser e Hcol Hdt Hint Hser He.
    unfold tools_core.time_trend, tools_core.to_numeric_int,
      bind, read_STATE, of_outcome, try_except, call, ret.
    rewrite Hdf, Hcol. cbv beta iota zeta.
    destruct s as [l|l|l|l|l];
      [ now destruct (Hint l) | | | | now destruct (Hdt l) ];
      rewrite Hser; cbv beta iota zeta; now rewrite He.
Qed.

End Rendering.

(** C9 as stated fails: on the headless machine the counts of the
    [year] column are computed (no call into the environment is needed
    for an integer column), the line chart fails to draw, and
    [time_trend] answers [ok: False]; so does [plot_hist]. *)
Lemma rendering_failure_flips_ok :
  fst (tools_core.time_trend Sample.headless "year" "M" Sample.loaded)
  = Ret [("ok", VBool false);
         ("error", VStr "time_trend_failed:no renderer available")] /\
  fst (tools_core.plot_hist Sample.headless "year" 30 Sample.loaded)
  = Ret [("ok", VBool false);
         ("error", VStr "plot_hist_failed:no renderer available")].
Proof. split; reflexivity. Qed.

(** The amended C9 on the headless machine: the [region] entry carries
    the message of its chart, the result is [ok: True]. *)
Lemma rendering_failures_witness :
  exists out,
    fst (tools_core.top_categories Sample.headless ["region"; "price"] 10 Sample.loaded)
    = Ret [("ok", VBool true); ("top_categories", str_dict out)] /\
    lookup "region" out = Some (VStr "error:no renderer available").
Proof.
  destruct (rendering_failures Sample.headless ["region"; "price"] 10 []
              "year" 30 "year" "year" "M" Sample.loaded Sample.sales eq_refl)
    as [(out & Hres & Hout) _].
  exists out. split; [ exact Hres | ].
  exact (Hout "region" _ Sample.region_counts (or_introl eq_refl) eq_refl eq_refl).
Defined.

(** ** Outliers of constant columns *)

(** In binary64, [x - x] is [+0], or NaN when [x] is infinite or NaN. *)
Lemma sub_self (x : float) :
  Prim2SF (x - x) = S754_zero false \/ Prim2SF (x - x) = S754_nan.
Proof.
  rewrite sub_spec. unfold SF64sub.
  destruct (Prim2SF x) as [s|s| |s m e]; cbn.
  - left. now destruct s.
  - right. now destruct s.
  - now right.
  - left. rewrite Z.sub_diag. reflexivity.
Qed.

(** A zero or a NaN divided by anything is a zero or a NaN. *)
Lemma div_zero_or_nan (a b : float) :
  (exists s, Prim2SF a = S754_zero s) \/ Prim2SF a = S754_nan ->
  (exists s, Prim2SF (a / b) = S754_zero s) \/ Prim2SF (a / b) = S754_nan.
Proof.
  intros H. rewrite div_spec. unfold SF64div.
  destruct H as [[s ->] | ->].
  - destruct (Prim2SF b) as [s'|s'| |s' m e]; cbn; eauto.
  - right. now destruct (Prim2SF b).
Qed.

(** No positive threshold is below the absolute value of a zero or of
    a NaN. *)
Lemma zero_or_nan_within (z v : float) :
  (0 <? z)%float = true ->
  (exists s, Prim2SF v = S754_zero s) \/ Prim2SF v = S754_nan ->
  tools_core.exceeds z v = false.
Proof.
  unfold tools_core.exceeds. rewrite !ltb_spec, abs_spec. intros Hz H.
  change (Prim2SF 0) with (S754_zero false) in Hz.
  destruct H as [[s ->] | ->].
  - destruct (Prim2SF z) as [s'|s'| |s' m e]; cbn in *; try discriminate; try reflexivity.
    + now destruct s'.
    + now destruct s'.
  - now destruct (Prim2SF z) as [s'|s'| |s' m e].
Qed.

(** The z-score of a cell that equals the mean of its column is never
    above a positive threshold, whatever the standard deviation. *)
Lemma zscore_of_mean_within (z m sd : float) :
  (0 <? z)%float = true -> tools_core.exceeds z (tools_core.zscore m sd m) = false.
Proof.
  intros Hz. apply zero_or_nan_within; [ exact Hz | ].
  apply div_zero_or_nan.
  destruct (sub_self m) as [H|H]; eauto.
Qed.

Lemma nth_all_false (l : list bool) (i : nat) :
  Forall (fun b => b = false) l -> nth i l false = false.
Proof.
  intros H. revert i. induction H as [|b l Hb _ IH]; intros [|i]; cbn; auto.
Qed.

Lemma any_axis1_all_false (n : nat) (cols : list (list bool)) :
  Forall (Forall (fun b => b = false)) cols ->
  Forall (fun b => b = false) (tools_core.any_axis1 n cols).
Proof.
  intros H. unfold tools_core.any_axis1. apply Forall_map, Forall_forall. intros i _.
  induction H as [|col cols Hcol _ IH]; cbn; [ reflexivity | ].
  now rewrite (nth_all_false col i Hcol).
Qed.

Lemma index_where_all_false (mask : list bool) :
  Forall (fun b => b = false) mask -> forall i, tools_core.index_where i mask = [].
Proof.
  induction 1 as [|b mask Hb _ IH]; intro i; cbn; [ reflexivity | ].
  rewrite Hb. apply IH.
Qed.

Section Outliers.

Variable env : Env.

(** [df[columns]] succeeds when every label is a column, and picks
    those columns. *)
Lemma take_columns_found (P : Series -> Prop) (d : DataFrame) (cols : list string) :
  (forall c, In c cols -> exists s, find_column c (columns d) = Some s /\ P s) ->
  exists picked,
    tools_core.take_columns d cols = Some picked /\
    Forall (fun cs => P (snd cs)) picked.
Proof.
  induction cols as [|c cols IH]; intros H; cbn.
  - now exists [].
  - destruct (H c (or_introl eq_refl)) as (s & -> & Hs).
    destruct IH as (picked & -> & Hp); [ intros c' Hc'; apply H; now right | ].
    exists ((c, s) :: picked). split; [ reflexivity | now constructor ].
Qed.

Lemma select_number_constant (picked : list (string * Series)) :
  Forall (fun cs => constant_at_mean env (snd cs)) picked ->
  Forall (fun col => forall x, In x (snd col) -> x = mean env (fst col))
         (tools_core.select_number picked).
Proof.
  induction 1 as [|[c s] picked Hs _ IH]; cbn; [ constructor | ].
  destruct (numeric_cells s) as [cells|] eqn:Hc; [ | exact IH ].
  constructor; [ | exact IH ]. intros x Hx. exact (Hs cells x Hc Hx).
Qed.

Lemma constant_column_within (z : float) (col : Series * list float) :
  (0 <? z)%float = true ->
  (forall x, In x (snd col) -> x = mean env (fst col)) ->
  Forall (fun b => b = false) (map (tools_core.exceeds z) (tools_core.zscores_of env col)).
Proof.
  intros Hz Hcol. unfold tools_core.zscores_of.
  apply Forall_map, Forall_map, Forall_forall. intros x Hx.
  rewrite (Hcol x Hx). now apply zscore_of_mean_within.
Qed.

(** C6, as the code has it.  With a table loaded and every requested
    label a column of it, [outliers] never fails: the division by
    [std + 1e-9] raises nothing and the result is [ok: True] with the
    count of the flagged rows.  When moreover every requested numeric
    column is constant and pandas computes its mean as exactly that
    constant, no row is flagged for any positive [z]: the count is 0
    and the list of indices is empty. *)
Theorem outliers_constant_columns
  (cols : list string) (z : float) (w : World) (d : DataFrame) :
  df (state w) = Some d ->
  (forall c, In c cols -> exists s, find_column c (columns d) = Some s) ->
  (exists indices,
     fst (tools_core.outliers env cols z w)
     = Ret [("ok", VBool true);
            ("count", VInt (Z.of_nat (List.length indices)));
            ("indices", VList (map VInt indices))]) /\
  ((forall c s, In c cols -> find_column c (columns d) = Some s -> constant_at_mean env s) ->
   (0 <? z)%float = true ->
   fst (tools_core.outliers env cols z w)
   = Ret [("ok", VBool true); ("count", VInt 0); ("indices", VList [])]).
Proof.
  intros Hdf Hcols. split.
  - destruct (take_columns_found (fun _ => True) d cols) as (picked & Hp & _).
    { intros c Hc. destruct (Hcols c Hc) as (s & Hs). now exists s. }
    eexists.
    unfold tools_core.outliers, tools_core.getitem_list,
      bind, read_STATE, try_except, of_outcome, call, ret.
    rewrite Hdf, Hp. reflexivity.
  - intros Hconst Hz.
    destruct (take_columns_found (constant_at_mean env) d cols) as (picked & Hp & Hall).
    { intros c Hc. destruct (Hcols c Hc) as (s & Hs). exists s. split; [ exact Hs | ].
      exact (Hconst c s Hc Hs). }
    unfold tools_core.outliers, tools_core.getitem_list,
      bind, read_STATE, try_except, of_outcome, call, ret.
    rewrite Hdf, Hp. cbv beta iota zeta.
    rewrite index_where_all_false; [ reflexivity | ].
    apply any_axis1_all_false. rewrite map_map.
    apply Forall_map.
    eapply Forall_impl; [ | exact (select_number_constant picked Hall) ].
    intros col Hcol. now apply constant_column_within.
Qed.

End Outliers.

(** C6 as stated fails.  The three doses are the same double, the one
    nearest to 0.1; their sum divided by 3 is the next double,
    [0x1.999999999999bp-4], so every z-score is about [-1.39e-8]
    instead of 0, and with the positive threshold [z = 1e-9] all three
    rows are flagged. *)
Lemma outliers_flags_constant_column :
  (0 <? 0x1.12e0be826d695p-30)%float = true /\
  mean Sample.desktop (SFloat [0x1.999999999999ap-4; 0x1.999999999999ap-4;
                               0x1.999999999999ap-4]%float)
  = 0x1.999999999999bp-4%float /\
  fst (tools_core.outliers Sample.desktop ["dose"] 0x1.12e0be826d695p-30 Sample.measured)
  = Ret [("ok", VBool true); ("count", VInt 3);
         ("indices", VList [VInt 0; VInt 1; VInt 2])].
Proof. repeat split; vm_compute; reflexivity. Qed.

(** The amended C6 on the readings: the batch is 7 in every row and its
    mean is computed as 7; the site is not numeric. *)
Lemma outliers_constant_columns_witness :
  (exists indices,
     fst (tools_core.outliers Sample.desktop ["batch"; "site"] 3 Sample.measured)
     = Ret [("ok", VBool true);
            ("count", VInt (Z.of_nat (List.length indices)));
            ("indices", VList (map VInt indices))]) /\
  fst (tools_core.outliers Sample.desktop ["batch"; "site"] 3 Sample.measured)
  = Ret [("ok", VBool true); ("count", VInt 0); ("indices", VList [])].
Proof.
  destruct (outliers_constant_columns Sample.desktop ["batch"; "site"] 3
              Sample.measured Sample.readings eq_refl) as [H1 H2].
  - intros c [<-|[<-|[]]]; eexists; reflexivity.
  - split; [ exact H1 | ]. apply H2; [ | reflexivity ].
    intros c s [<-|[<-|[]]] Hs; injection Hs as <-; intros cells x Hc Hx;
      try discriminate Hc.
    injection Hc as <-. vm_compute in Hx.
    destruct Hx as [<-|[<-|[<-|[]]]]; vm_compute; reflexivity.
Defined.

(** At the default threshold the rounded mean of the doses does not
    show: their z-scores are far below 3. *)
Example readings_dose_default_threshold :
  fst (tools_core.outliers Sample.desktop ["dose"] 3 Sample.measured)
  = Ret [("ok", VBool true); ("count", VInt 0); ("indices", VList [])].
Proof. vm_compute. reflexivity. Qed.

(** A label that is not a column makes [outliers] fail with the
    message of the [KeyError]. *)
Example readings_unknown_label :
  exists text,
    fst (tools_core.outliers Sample.desktop ["dose"; "price"] 3 Sample.measured)
    = Ret [("ok", VBool false); ("error", VStr ("outlier_failed:" ++ text))].
Proof. eexists. reflexivity. Qed.

(** * Further properties of the tools *)

(** ** STATE across a session *)

Lemma read_STATE_bind {A} (k : STATE -> M A) (w : World) :
  bind read_STATE k w = k (state w) w.
Proof. reflexivity. Qed.

Section Sessions.

Variable env : Env.

(** What one call can do to [STATE]: nothing, store a schema, or
    store a table together with its name. *)
Lemma run_writes (c : tool_call) (w : World) :
  state (snd (run env c w)) = state w \/
  (exists s, c = Set_schema s /\
             state (snd (run env c w)) = State (df (state w)) (name (state w)) (Some s)) \/
  (exists p d n, c = Load_data p /\
                 state (snd (run env c w)) = State (Some d) (Some n) (schema (state w))).
Proof.
  destruct c;
    try (left;
         match goal with
         | |- state (snd (run env ?c w)) = state w => exact (keeps_readers env c w)
         end).
  - (* load_data *)
    assert (Htry : forall p w0,
               state (snd (tools_core.load_data_try env p w0)) = state w0 \/
               exists d n, state (snd (tools_core.load_data_try env p w0))
                           = State (Some d) (Some n) (schema (state w0))).
    { intros p w0.
      unfold tools_core.load_data_try, try_except, bind, call, write_df, write_name,
        read_STATE, ret.
      destruct (read_csv env p) as [d|e]; cbn; [ right; now eexists _, _ | now left ]. }
    cbn. unfold tools_core.load_data. destruct path as [p|].
    + destruct (Htry p w) as [H|(d & n & H)]; [ now left | ].
      right; right. now exists (Some p), d, n.
    + unfold bind at 1, call at 1.
      destruct (path_exists env "dataset.csv") as [[|]|e]; [ | now left | now left ].
      match goal with
      | |- context [tools_core.load_data_try env ?p ?w0] =>
          destruct (Htry p w0) as [H|(d & n & H)]
      end.
      * left. exact H.
      * right; right. exists None, d, n. split; [ reflexivity | exact H ].
  - (* set_schema *)
    right; left. now exists s.
Qed.

(** X1.  A stored schema stays: after [set_schema s], whatever other
    tools are called (loads that succeed or fail, tools that raise),
    [get_schema] answers [ok: True] with [s] as long as [set_schema] is
    not called again. *)
Theorem schema_survives_session (s : list (string * list string))
  (cs : list tool_call) (w : World) :
  forallb (fun c => negb (is_set_schema c)) cs = true ->
  fst (tools_core.get_schema (session env cs (snd (tools_core.set_schema s w))))
  = Ret [("ok", VBool true); ("schema", tools_core.schema_value (Some s))].
Proof.
  intros Hcs.
  assert (H : forall w0, schema (state w0) = Some s ->
                         schema (state (session env cs w0)) = Some s).
  { induction cs as [|c cs IH]; intros w0 Hw0; cbn; [ exact Hw0 | ].
    cbn in Hcs. apply andb_true_iff in Hcs as [Hc Hcs].
    apply IH; [ exact Hcs | ].
    destruct (run_writes c w0) as [H|[(s' & -> & H)|(p & d & n & -> & H)]];
      rewrite H; [ exact Hw0 | discriminate Hc | exact Hw0 ]. }
  unfold tools_core.get_schema, bind, read_STATE, ret. cbn [fst].
  now rewrite (H (snd (tools_core.set_schema s w)) eq_refl).
Qed.

(** X2.  The table and its name go together: in any session that
    starts with both slots empty or both filled, they are both empty
    or both filled after every call. *)
Theorem table_and_name_in_sync (cs : list tool_call) (w : World) :
  in_sync (state w) -> in_sync (state (session env cs w)).
Proof.
  revert w. induction cs as [|c cs IH]; intros w Hw; cbn; [ exact Hw | ].
  apply IH.
  destruct (run_writes c w) as [H|[(s' & -> & H)|(p & d & n & -> & H)]]; rewrite H.
  - exact Hw.
  - exact Hw.
  - split; discriminate.
Qed.

(** X3.  No tool unloads the table: once a table is loaded, one is
    loaded after every further session, failed loads included. *)
Theorem table_never_unloaded (cs : list tool_call) (w : World) :
  df (state w) <> None -> df (state (session env cs w)) <> None.
Proof.
  revert w. induction cs as [|c cs IH]; intros w Hw; cbn; [ exact Hw | ].
  apply IH.
  destruct (run_writes c w) as [H|[(s' & -> & H)|(p & d & n & -> & H)]]; rewrite H.
  - exact Hw.
  - exact Hw.
  - discriminate.
Qed.

End Sessions.

(** X1 on the sample session: a schema set before a failed load and a
    failing chart. *)
Lemma schema_survives_session_witness :
  fst (tools_core.get_schema
         (session Sample.headless [Load_data (Some "nowhere.csv"); Plot_hist "year" 30]
            (snd (tools_core.set_schema [("numeric", ["year"])] Sample.loaded))))
  = Ret [("ok", VBool true);
         ("schema", tools_core.schema_value (Some [("numeric", ["year"])]))].
Proof.
  apply (schema_survives_session Sample.headless). reflexivity.
Defined.

(** X2 from a fresh process: a load, then a load that fails. *)
Lemma table_and_name_in_sync_witness :
  in_sync (state (session Sample.desktop
                    [Load_data (Some "sales.csv"); Load_data (Some "nowhere.csv")] World0)).
Proof.
  apply (table_and_name_in_sync Sample.desktop). split; reflexivity.
Defined.

(** X3 on the sample session. *)
Lemma table_never_unloaded_witness :
  df (state (session Sample.desktop
               [Load_data None; Time_trend "price" "M"; Set_schema []] Sample.loaded))
  <> None.
Proof.
  apply (table_never_unloaded Sample.desktop). discriminate.
Defined.

(** ** The sentinel, the default path, and load followed by summary *)

Ltac differs :=
  repeat first
    [ apply returns_ret; cbn; intro; discriminate
    | apply returns_raise
    | apply returns_try; [ | intro ]
    | apply returns_bind; intro
    | match goal with
      | |- returns _ (match ?x with _ => _ end) => destruct x
      | |- returns _ (let (_, _) := ?x in _) => destruct x
      end ].

Section Loaded.

Variable env : Env.

(** X4.  For the ten tools that work on the table, the answer
    [{"ok": False, "error": "no_dataset_loaded"}] means exactly that no
    table is loaded: with a table loaded none of them returns it,
    whatever pandas and plotly raise. *)
Theorem no_dataset_loaded_iff (c : tool_call) (w : World) :
  requiresDataset c = true ->
  (fst (run env c w) = Ret tools_core.no_dataset_loaded <-> df (state w) = None).
Proof.
  intros Hreq.
  destruct c; try discriminate Hreq; unfold run;
    unfold tools_core.summary, tools_core.head, tools_core.top_categories,
      tools_core.correlations, tools_core.scatter_pairs, tools_core.outliers,
      tools_core.missing, tools_core.plot_hist, tools_core.plot_xy,
      tools_core.time_trend;
    rewrite read_STATE_bind;
    (destruct (df (state w)) as [d|]; [ | now split ]);
    (split; [ intro H; exfalso | discriminate ]);
    revert H;
    match goal with
    | |- fst (?m w) = Ret ?r -> False =>
        assert (Hm : returns (fun r' => r' <> r) m) by differs;
        intro H; exact (Hm w r H eq_refl)
    end.
Qed.

(** [load_data]'s [try] block reads the world through [STATE] only. *)
Lemma load_data_try_reads_STATE (p : string) (w1 w2 : World) :
  state w1 = state w2 ->
  fst (tools_core.load_data_try env p w1) = fst (tools_core.load_data_try env p w2) /\
  state (snd (tools_core.load_data_try env p w1))
  = state (snd (tools_core.load_data_try env p w2)).
Proof.
  intros H.
  unfold tools_core.load_data_try, try_except, bind, call, write_df, write_name,
    read_STATE, ret.
  destruct (read_csv env p); cbn; rewrite ?H; now split.
Qed.

Lemma load_data_None_run (w : World) :
  tools_core.load_data env None w
  = match path_exists env "dataset.csv" with
    | Ret true => tools_core.load_data_try env "dataset.csv"
    | Ret false => ret (tools_core.failure "no_path_provided_and_dataset.csv_not_found")
    | Raise e => raise e
    end (Mk (state w) (trace w ++ [PathExists "dataset.csv"])).
Proof.
  unfold tools_core.load_data, bind, call.
  now destruct (path_exists env "dataset.csv") as [[|]|e].
Qed.

(** X5.  When [dataset.csv] exists, [load_data()] without a path does
    what [load_data("dataset.csv")] does: same result, same [STATE]. *)
Theorem load_data_default_path (w : World) :
  path_exists env "dataset.csv" = Ret true ->
  fst (tools_core.load_data env None w)
  = fst (tools_core.load_data env (Some "dataset.csv") w) /\
  state (snd (tools_core.load_data env None w))
  = state (snd (tools_core.load_data env (Some "dataset.csv") w)).
Proof.
  intros Hex. rewrite load_data_None_run, Hex.
  apply load_data_try_reads_STATE. reflexivity.
Qed.

(** X6.  [summary] after a successful [load_data] reports the size the
    load reported: when both answer [ok: True], their [rows] and [cols]
    entries are the same integers. *)
Theorem summary_agrees_with_load (path : option string) (b : bool) (w : World)
  (r1 r2 : Result) :
  fst (tools_core.load_data env path w) = Ret r1 ->
  lookup "ok" r1 = Some (VBool true) ->
  fst (tools_core.summary env b (snd (tools_core.load_data env path w))) = Ret r2 ->
  lookup "ok" r2 = Some (VBool true) ->
  exists rows cols,
    lookup "rows" r1 = Some (VInt rows) /\ lookup "rows" r2 = Some (VInt rows) /\
    lookup "cols" r1 = Some (VInt cols) /\ lookup "cols" r2 = Some (VInt cols).
Proof.
  assert (Htry : forall p w0 r1' r2',
             fst (tools_core.load_data_try env p w0) = Ret r1' ->
             lookup "ok" r1' = Some (VBool true) ->
             fst (tools_core.summary env b (snd (tools_core.load_data_try env p w0)))
             = Ret r2' ->
             lookup "ok" r2' = Some (VBool true) ->
             exists rows cols,
               lookup "rows" r1' = Some (VInt rows) /\ lookup "rows" r2' = Some (VInt rows) /\
               lookup "cols" r1' = Some (VInt cols) /\ lookup "cols" r2' = Some (VInt cols)).
  { intros p w0 r1' r2'.
    unfold tools_core.load_data_try, tools_core.summary, try_except, bind, call,
      write_df, write_name, read_STATE, ret.
    destruct (read_csv env p) as [d|e]; cbn.
    - intros H1 _. injection H1 as <-.
      destruct (describe env d b) as [desc|e]; cbn.
      + intros H2 _. injection H2 as <-. now exists (len d), (ncols d).
      + intros H2 Hok. injection H2 as <-. discriminate Hok.
    - intros H1 Hok. injection H1 as <-. discriminate Hok. }
  destruct path as [p|]; [ apply Htry | ].
  rewrite load_data_None_run.
  destruct (path_exists env "dataset.csv") as [[|]|e]; [ apply Htry | | ].
  - cbn. intros H1 Hok. injection H1 as <-. discriminate Hok.
  - cbn. intros H1. discriminate H1.
Qed.

End Loaded.

(** X4 on the sample session. *)
Lemma no_dataset_loaded_iff_witness :
  fst (run Sample.headless (Plot_xy "year" "year") Sample.loaded)
  = Ret tools_core.no_dataset_loaded
  <-> df (state Sample.loaded) = None.
Proof.
  apply (no_dataset_loaded_iff Sample.headless (Plot_xy "year" "year") Sample.loaded).
  reflexivity.
Defined.

(** X6 on the sample session: [sales.csv] has 4 rows and 3 columns. *)
Lemma summary_agrees_with_load_witness :
  exists rows cols,
    lookup "rows" [("ok", VBool true); ("dataset", VStr "sales.csv"); ("rows", VInt 4);
                   ("cols", VInt 3);
                   ("columns", VList [VStr "year"; VStr "region"; VStr "sold_on"])]
    = Some (VInt rows) /\
    lookup "rows" [("ok", VBool true); ("rows", VInt 4); ("cols", VInt 3);
                   ("describe", VDict [])] = Some (VInt rows) /\
    lookup "cols" [("ok", VBool true); ("dataset", VStr "sales.csv"); ("rows", VInt 4);
                   ("cols", VInt 3);
                   ("columns", VList [VStr "year"; VStr "region"; VStr "sold_on"])]
    = Some (VInt cols) /\
    lookup "cols" [("ok", VBool true); ("rows", VInt 4); ("cols", VInt 3);
                   ("describe", VDict [])] = Some (VInt cols).
Proof.
  apply (summary_agrees_with_load Sample.desktop (Some "sales.csv") true World0);
    reflexivity.
Defined.

(** X5 in a directory that holds [dataset.csv]. *)
Lemma load_data_default_path_witness :
  fst (tools_core.load_data Cases.workdir None World0)
  = fst (tools_core.load_data Cases.workdir (Some "dataset.csv") World0) /\
  state (snd (tools_core.load_data Cases.workdir None World0))
  = state (snd (tools_core.load_data Cases.workdir (Some "dataset.csv") World0)).
Proof.
  apply (load_data_default_path Cases.workdir World0). reflexivity.
Defined.

(** ** Loops over columns and pairs *)

Lemma setitem_keys (d : Result) (k k' : string) (v : value) :
  In k' (map fst (setitem d k v)) <-> k' = k \/ In k' (map fst d).
Proof.
  induction d as [|[k0 v0] d IH]; cbn.
  - intuition.
  - destruct (String.eqb_spec k k0) as [->|Hne]; cbn; [ intuition | ].
    rewrite IH. intuition.
Qed.

Lemma setitem_NoDup (d : Result) (k : string) (v : value) :
  NoDup (map fst d) -> NoDup (map fst (setitem d k v)).
Proof.
  induction d as [|[k0 v0] d IH]; cbn; intro Hnd.
  - repeat constructor. intros [].
  - apply NoDup_cons_iff in Hnd as [Hin Hnd].
    destruct (String.eqb_spec k k0) as [->|Hne]; cbn.
    + now constructor.
    + constructor; [ | now apply IH ].
      rewrite setitem_keys. intros [->|H]; [ now apply Hne | now apply Hin ].
Qed.

Lemma entries_keys (f : string -> value) (cols : list string) :
  forall out,
    NoDup (map fst out) ->
    NoDup (map fst (fold_left (fun o k => setitem o k (f k)) cols out)) /\
    forall c, In c (map fst (fold_left (fun o k => setitem o k (f k)) cols out))
              <-> In c cols \/ In c (map fst out).
Proof.
  induction cols as [|k cols IH]; intros out Hnd; cbn.
  - split; [ exact Hnd | intuition ].
  - destruct (IH (setitem out k (f k)) (setitem_NoDup out k (f k) Hnd)) as [Hnd' Hin].
    split; [ exact Hnd' | ].
    intro c. rewrite Hin, setitem_keys. intuition.
Qed.

Section Loops.

Variable env : Env.

(** X7.  [top_categories] answers with one entry per distinct column
    asked for: a column named twice has one entry, and no entry is for
    a column that was not asked for. *)
Theorem top_categories_one_entry_per_column
  (cols : list string) (top_n : Z) (w : World) (d : DataFrame) :
  df (state w) = Some d ->
  exists out,
    fst (tools_core.top_categories env cols top_n w)
    = Ret [("ok", VBool true); ("top_categories", str_dict out)] /\
    NoDup (map fst out) /\
    forall c, In c (map fst out) <-> In c cols.
Proof.
  intros Hdf.
  exists (fold_left (fun o c => setitem o c (top_categories_entry env d top_n c)) cols []).
  split.
  - unfold tools_core.top_categories. rewrite read_STATE_bind, Hdf.
    pose proof (top_categories_loop_entries env d top_n cols [] w) as Hloop.
    destruct (tools_core.top_categories_loop env d top_n cols [] w) as [r w1] eqn:E.
    cbn in Hloop. subst r. now rewrite (bind_Ret _ _ _ _ _ E).
  - destruct (entries_keys (top_categories_entry env d top_n) cols [] (NoDup_nil _))
      as [Hnd Hin].
    split; [ exact Hnd | ].
    intro c. rewrite Hin. cbn. intuition.
Qed.

Lemma scatter_pairs_step_trace d rendered xy w :
  trace (snd (tools_core.scatter_pairs_step env d rendered xy w))
  = (trace w ++ [Plot (tools_core.scatter_chart d (fst xy) (snd xy))])%list.
Proof.
  destruct xy as [x y].
  unfold tools_core.scatter_pairs_step, try_except, bind, call, ret. cbn [fst snd].
  now destruct (show env (tools_core.scatter_chart d x y)).
Qed.

Lemma scatter_pairs_loop_trace d pairs :
  forall rendered w,
    trace (snd (tools_core.scatter_pairs_loop env d pairs rendered w))
    = (trace w
       ++ map (fun xy => Plot (tools_core.scatter_chart d (fst xy) (snd xy))) pairs)%list.
Proof.
  induction pairs as [|xy pairs IH]; intros rendered w;
    cbn [tools_core.scatter_pairs_loop map].
  - cbn. now rewrite app_nil_r.
  - pose proof (scatter_pairs_step_entry env d rendered xy w) as Hres.
    pose proof (scatter_pairs_step_trace d rendered xy w) as Htr.
    destruct (tools_core.scatter_pairs_step env d rendered xy w) as [r w1] eqn:E.
    cbn in Hres, Htr. subst r.
    rewrite (bind_Ret _ _ _ _ _ E), IH, Htr, <- app_assoc. reflexivity.
Qed.

(** X8.  [scatter_pairs] asks for the chart of every pair exactly
    once, in the order given, and for nothing else: a chart that fails
    does not stop the later ones from being drawn. *)
Theorem scatter_pairs_draws_every_pair
  (pairs : list (string * string)) (w : World) (d : DataFrame) :
  df (state w) = Some d ->
  trace (snd (tools_core.scatter_pairs env pairs w))
  = (trace w
     ++ map (fun xy => Plot (tools_core.scatter_chart d (fst xy) (snd xy))) pairs)%list.
Proof.
  intros Hdf. unfold tools_core.scatter_pairs. rewrite read_STATE_bind, Hdf.
  pose proof (scatter_pairs_loop_entries env d pairs [] w) as Hres.
  pose proof (scatter_pairs_loop_trace d pairs [] w) as Htr.
  destruct (tools_core.scatter_pairs_loop env d pairs [] w) as [r w1] eqn:E.
  cbn in Hres, Htr. subst r.
  now rewrite (bind_Ret _ _ _ _ _ E).
Qed.

End Loops.

(** X7 on the sample session: [region] asked for twice. *)
Lemma top_categories_one_entry_per_column_witness :
  exists out,
    fst (tools_core.top_categories Sample.desktop ["region"; "year"; "region"] 10
           Sample.loaded)
    = Ret [("ok", VBool true); ("top_categories", str_dict out)] /\
    NoDup (map fst out) /\
    forall c, In c (map fst out) <-> In c ["region"; "year"; "region"].
Proof.
  apply (top_categories_one_entry_per_column Sample.desktop
           ["region"; "year"; "region"] 10 Sample.loaded Sample.sales).
  reflexivity.
Defined.

(** X8 on the headless machine, where both charts fail. *)
Lemma scatter_pairs_draws_every_pair_witness :
  trace (snd (tools_core.scatter_pairs Sample.headless
                [("year", "region"); ("year", "price")] Sample.loaded))
  = [ReadCsv "sales.csv";
     Plot (tools_core.scatter_chart Sample.sales "year" "region");
     Plot (tools_core.scatter_chart Sample.sales "year" "price")].
Proof.
  apply (scatter_pairs_draws_every_pair Sample.headless
           [("year", "region"); ("year", "price")] Sample.loaded Sample.sales).
  reflexivity.
Defined.

(** ** What a trend counts *)

Lemma count_of_bump (k k' : Z) (t : list (Z * Z)) :
  count_of k' (bump k t) = count_of k' t + (if Z.eqb k' k then 1 else 0).
Proof.
  induction t as [|[k0 n] t IH]; cbn.
  - destruct (Z.eqb k' k); reflexivity.
  - destruct (Z.eqb_spec k k0) as [->|Hne]; cbn.
    + destruct (Z.eqb k' k0); lia.
    + destruct (Z.eqb_spec k' k0) as [->|Hne'].
      * destruct (Z.eqb_spec k0 k); [ congruence | lia ].
      * exact IH.
Qed.

Lemma count_of_tally (l : list Z) (k : Z) :
  count_of k (tally l) = Z.of_nat (count_occ Z.eq_dec l k).
Proof.
  unfold tally.
  assert (H : forall t, count_of k (fold_left (fun t k => bump k t) l t)
                        = count_of k t + Z.of_nat (count_occ Z.eq_dec l k)).
  { induction l as [|a l IH]; intro t; cbn; [ lia | ].
    rewrite IH, count_of_bump.
    destruct (Z.eq_dec a k) as [->|Hne].
    - rewrite Z.eqb_refl. lia.
    - destruct (Z.eqb_spec k a); [ congruence | lia ]. }
  now rewrite H.
Qed.

Lemma count_of_In (t : list (Z * Z)) (k n : Z) :
  NoDup (map fst t) -> (In (k, n) t <-> In k (map fst t) /\ n = count_of k t).
Proof.
  induction t as [|[k0 n0] t IH]; cbn; intro Hnd.
  - intuition.
  - apply NoDup_cons_iff in Hnd as [Hin Hnd]. specialize (IH Hnd).
    destruct (Z.eqb_spec k k0) as [->|Hne].
    + split.
      * intros [H|H]; [ injection H as <-; auto | ].
        exfalso. apply Hin. now apply (in_map fst) in H.
      * intros [_ ->]. now left.
    + split.
      * intros [H|H]; [ congruence | ]. apply IH in H as [H1 H2]. auto.
      * intros [[H|H] Hn]; [ congruence | ]. right. apply IH. auto.
Qed.

Lemma tally_index (l : list Z) (k : Z) : In k (map fst (tally l)) <-> In k l.
Proof.
  assert (Hperm : Permutation (map fst (sort_index (value_counts l))) (map fst (tally l))).
  { apply Permutation_map. unfold sort_index, value_counts.
    etransitivity; apply sort_rows_perm. }
  split; intro H.
  - apply counts_index_complete. exact (Permutation_in _ (Permutation_sym Hperm) H).
  - apply counts_index_complete in H. exact (Permutation_in _ Hperm H).
Qed.

(** The rows of [value_counts().sort_index()]: one for each value that
    occurs, holding the number of its occurrences. *)
Lemma counts_by_index_rows (l : list Z) (k n : Z) :
  In (k, n) (sort_index (value_counts l))
  <-> In k l /\ n = Z.of_nat (count_occ Z.eq_dec l k).
Proof.
  assert (Hperm : Permutation (sort_index (value_counts l)) (tally l)).
  { unfold sort_index, value_counts. etransitivity; apply sort_rows_perm. }
  rewrite <- tally_index, <- count_of_tally, <- (count_of_In _ _ _ (tally_NoDup l)).
  split; intro H.
  - exact (Permutation_in _ Hperm H).
  - exact (Permutation_in _ (Permutation_sym Hperm) H).
Qed.

(** The cast to [int64] keeps the values of an [int64] column. *)
Lemma astype_int_int64 (z : Z) : is_int64 z -> astype_int z = z.
Proof.
  unfold is_int64, astype_int. intros H.
  rewrite Z.mod_small; lia.
Qed.

Lemma astype_int_int64_column (l : list Z) : Forall is_int64 l -> map astype_int l = l.
Proof.
  induction 1 as [|z l Hz _ IH]; cbn; [ reflexivity | ].
  now rewrite IH, astype_int_int64.
Qed.

Section Trends.

Variable env : Env.

(** X9.  On an integer column whose chart is drawn, the trend of
    [time_trend] has an entry for a year exactly when the year is the
    [int64] cast of a cell of the column, and the entry is the number
    of rows with that cast.  On an [int64] column the cast changes
    nothing: the entries are the years that occur in the column, each
    with the number of its rows. *)
Theorem time_trend_counts_rows (column freq : string) (w : World) (d : DataFrame)
  (l : list Z) :
  df (state w) = Some d ->
  getitem env d column = Ret (SInt l) ->
  show env (tools_core.line_chart column ("Count by Year: " ++ column)
              (tools_core.trend_dict VInt (sort_index (value_counts (map astype_int l)))))
  = Ret tt ->
  exists grp,
    fst (tools_core.time_trend env column freq w)
    = Ret [("ok", VBool true);
           ("type", VStr "year-int");
           ("trend", VDict (map (fun r => (VInt (fst r), VInt (snd r))) grp))] /\
    (forall year n,
       In (year, n) grp
       <-> In year (map astype_int l) /\
           n = Z.of_nat (count_occ Z.eq_dec (map astype_int l) year)) /\
    (Forall is_int64 l ->
     forall year n,
       In (year, n) grp <-> In year l /\ n = Z.of_nat (count_occ Z.eq_dec l year)).
Proof.
  intros Hdf Hcol Hshow. exists (sort_index (value_counts (map astype_int l))).
  split; [ | split ].
  - unfold tools_core.time_trend, tools_core.to_numeric_int,
      bind, read_STATE, of_outcome, try_except, call, ret.
    rewrite Hdf, Hcol. cbv beta iota zeta. now rewrite Hshow.
  - intros year n. apply counts_by_index_rows.
  - intros Hl year n. rewrite (astype_int_int64_column l Hl).
    apply counts_by_index_rows.
Qed.

(** X10.  [freq] matters for datetime columns only: on any other
    column [time_trend] does the same for every [freq] (same result,
    same calls into pandas and plotly). *)
Theorem time_trend_freq_only_for_datetime
  (column f1 f2 : string) (w : World) (d : DataFrame) (s : Series) :
  df (state w) = Some d ->
  getitem env d column = Ret s ->
  (forall l, s <> SDatetime l) ->
  tools_core.time_trend env column f1 w = tools_core.time_trend env column f2 w.
Proof.
  intros Hdf Hcol Hs.
  unfold tools_core.time_trend. rewrite !read_STATE_bind, Hdf.
  unfold bind at 1 3, of_outcome. rewrite Hcol.
  destruct s; try reflexivity. now destruct (Hs l).
Qed.

End Trends.

(** X9 on the sample session: 2021 occurs twice. *)
Lemma time_trend_counts_rows_witness :
  exists grp,
    fst (tools_core.time_trend Sample.desktop "year" "M" Sample.loaded)
    = Ret [("ok", VBool true);
           ("type", VStr "year-int");
           ("trend", VDict (map (fun r => (VInt (fst r), VInt (snd r))) grp))] /\
    (forall year n,
       In (year, n) grp
       <-> In year (map astype_int [2021; 2020; 2021; 2019]) /\
           n = Z.of_nat (count_occ Z.eq_dec (map astype_int [2021; 2020; 2021; 2019]) year)) /\
    (Forall is_int64 [2021; 2020; 2021; 2019] ->
     forall year n,
       In (year, n) grp
       <-> In year [2021; 2020; 2021; 2019] /\
           n = Z.of_nat (count_occ Z.eq_dec [2021; 2020; 2021; 2019] year)).
Proof.
  apply (time_trend_counts_rows Sample.desktop "year" "M" Sample.loaded Sample.sales);
    reflexivity.
Defined.

(** X10 on the sample session: the text column [region]. *)
Lemma time_trend_freq_only_for_datetime_witness :
  tools_core.time_trend Sample.desktop "region" "M" Sample.loaded
  = tools_core.time_trend Sample.desktop "region" "Y" Sample.loaded.
Proof.
  apply (time_trend_freq_only_for_datetime Sample.desktop "region" "M" "Y"
           Sample.loaded Sample.sales
           (SObject [Some "north"; Some "south"; None; Some "north"]));
    [ reflexivity | reflexivity | discriminate ].
Defined.

(** ** The wrappers of server.py *)

Section ServerSurface.

Variable env : Env.

(** X11.  Before any table is loaded, a wrapper of a table-reading
    tool either is refused for a required argument left out
    ([TypeError]) or answers [no_dataset_loaded]; in both cases
    [STATE] is untouched and pandas and plotly are not called. *)
Theorem wrappers_before_load (r : request) (w : World) :
  reads_table r = true ->
  df (state w) = None ->
  serve env r w = (Ret tools_core.no_dataset_loaded, w) \/
  exists e, cls e = "TypeError" /\ serve env r w = (Raise e, w).
Proof.
  intros Hr Hdf.
  destruct r; try discriminate Hr;
    repeat match goal with
           | a : supplied _ |- _ => destruct a
           end;
    unfold serve, server.tool_summary, server.tool_head, server.tool_top_categories,
      server.tool_correlations, server.tool_scatter_pairs, server.tool_outliers,
      server.tool_missing, server.tool_plot_hist, server.tool_plot_xy,
      server.tool_time_trend, server.default;
    first
      [ right; eexists; split; [ | reflexivity ]; reflexivity
      | left;
        unfold tools_core.summary, tools_core.head, tools_core.top_categories,
          tools_core.correlations, tools_core.scatter_pairs, tools_core.outliers,
          tools_core.missing, tools_core.plot_hist, tools_core.plot_xy,
          tools_core.time_trend;
        rewrite read_STATE_bind, Hdf; reflexivity ].
Qed.

End ServerSurface.

(** X11 in a fresh process: [tool_plot_xy] with [y] left out, and
    [tool_head] with nothing given. *)
Lemma wrappers_before_load_witness :
  (serve Sample.desktop (Tool_plot_xy (Given "year") Omitted) World0
   = (Ret tools_core.no_dataset_loaded, World0) \/
   exists e, cls e = "TypeError" /\
             serve Sample.desktop (Tool_plot_xy (Given "year") Omitted) World0
             = (Raise e, World0)) /\
  (serve Sample.desktop (Tool_head Omitted) World0
   = (Ret tools_core.no_dataset_loaded, World0) \/
   exists e, cls e = "TypeError" /\
             serve Sample.desktop (Tool_head Omitted) World0 = (Raise e, World0)).
Proof.
  split.
  - apply (wrappers_before_load Sample.desktop (Tool_plot_xy (Given "year") Omitted)
             World0); reflexivity.
  - apply (wrappers_before_load Sample.desktop (Tool_head Omitted) World0); reflexivity.
Defined.

(** * Properties of the client side *)

(** ** What a program adds to the record *)

Lemma calls_app (t1 t2 : list io) : calls (t1 ++ t2) = (calls t1 ++ calls t2)%list.
Proof.
  induction t1 as [|[m|u p|tool args|] t1 IH]; cbn; rewrite ?IH; reflexivity.
Qed.

Lemma posts_app (t1 t2 : list io) : posts (t1 ++ t2) = (posts t1 ++ posts t2)%list.
Proof.
  induction t1 as [|[m|u p|tool args|] t1 IH]; cbn; rewrite ?IH; reflexivity.
Qed.

Lemma lines_app (t1 t2 : list io) : lines (t1 ++ t2) = (lines t1 ++ lines t2)%list.
Proof.
  induction t1 as [|[[s| | | | | | | | | | | | | |]|u p|tool args|] t1 IH]; cbn;
    rewrite ?IH; reflexivity.
Qed.

Lemma closes_app (t1 t2 : list io) : closes (t1 ++ t2) = (closes t1 + closes t2)%nat.
Proof.
  induction t1 as [|[m|u p|tool args|] t1 IH]; cbn; rewrite ?IH; reflexivity.
Qed.

Section Within.

Context {A B : Type}.
Variable Q : io -> Prop.

Lemma within_ret c p (a : A) : within Q c p (io_ret a).
Proof.
  intros t. exists []. cbn. rewrite app_nil_r. repeat split; auto using le_0_n.
Qed.

Lemma within_raise c p (e : exn) : within Q c p (@io_raise A e).
Proof.
  intros t. exists []. cbn. rewrite app_nil_r. repeat split; auto using le_0_n.
Qed.

Lemma within_io_of c p (r : outcome A) : within Q c p (io_of r).
Proof.
  intros t. exists []. cbn. rewrite app_nil_r. repeat split; auto using le_0_n.
Qed.

Lemma within_ask c p (ev : io) (r : outcome A) :
  Q ev ->
  (List.length (calls [ev]) <= c)%nat ->
  (List.length (posts [ev]) <= p)%nat ->
  within Q c p (ask ev r).
Proof. intros Hq Hc Hp t. exists [ev]. cbn. repeat split; auto. Qed.

Lemma within_bind c1 c2 p1 p2 (m : IO A) (k : A -> IO B) :
  within Q c1 p1 m ->
  (forall a, within Q c2 p2 (k a)) ->
  within Q (c1 + c2) (p1 + p2) (io_bind m k).
Proof.
  intros Hm Hk t. unfold io_bind.
  destruct (Hm t) as (n1 & E1 & Q1 & C1 & P1).
  destruct (m t) as [[a|e] t1]; cbn in E1; subst t1.
  - destruct (Hk a (t ++ n1)%list) as (n2 & E2 & Q2 & C2 & P2).
    exists (n1 ++ n2)%list. rewrite E2, app_assoc.
    split; [ reflexivity | ]. split; [ now apply Forall_app | ].
    rewrite calls_app, posts_app, !length_app. lia.
  - exists n1. cbn. repeat split; auto; lia.
Qed.

Lemma within_le c p c' p' (m : IO A) :
  within Q c p m -> (c <= c')%nat -> (p <= p')%nat -> within Q c' p' m.
Proof.
  intros Hm Hc Hp t. destruct (Hm t) as (n & E & Hq & C & P).
  exists n. repeat split; auto; lia.
Qed.

End Within.

Lemma within_emit Q c p (m : message) : Q (Printed m) -> within Q c p (emit m).
Proof.
  intros Hq t. exists [Printed m]. cbn. repeat split; auto using le_0_n.
Qed.

Lemma within_then {A B} Q c p (m : IO A) (k : A -> IO B) :
  within Q 0 0 m -> (forall a, within Q c p (k a)) -> within Q c p (io_bind m k).
Proof. intros Hm Hk. exact (within_bind Q 0 c 0 p m k Hm Hk). Qed.

Lemma within_except {A} Q c p (m : IO A) (class : string) (h : exn -> IO A) :
  within Q c p m -> (forall e, within Q 0 0 (h e)) -> within Q c p (io_except m class h).
Proof.
  intros Hm Hh t. unfold io_except.
  destruct (Hm t) as (n1 & E1 & Q1 & C1 & P1).
  destruct (m t) as [[a|e] t1]; cbn in E1; subst t1.
  - exists n1. cbn. auto.
  - destruct (String.eqb (cls e) class); [ | exists n1; cbn; auto ].
    destruct (Hh e (t ++ n1)%list) as (n2 & E2 & Q2 & C2 & P2).
    exists (n1 ++ n2)%list. rewrite E2, app_assoc.
    split; [ reflexivity | ]. split; [ now apply Forall_app | ].
    rewrite calls_app, posts_app, !length_app. lia.
Qed.

Lemma within_except_Exception {A} Q c p (m : IO A) (h : exn -> IO A) :
  within Q c p m -> (forall e, within Q 0 0 (h e)) ->
  within Q c p (io_except_Exception m h).
Proof.
  intros Hm Hh t. unfold io_except_Exception.
  destruct (Hm t) as (n1 & E1 & Q1 & C1 & P1).
  destruct (m t) as [[a|e] t1]; cbn in E1; subst t1.
  - exists n1. cbn. auto.
  - destruct (outside_Exception (cls e)); [ exists n1; cbn; auto | ].
    destruct (Hh e (t ++ n1)%list) as (n2 & E2 & Q2 & C2 & P2).
    exists (n1 ++ n2)%list. rewrite E2, app_assoc.
    split; [ reflexivity | ]. split; [ now apply Forall_app | ].
    rewrite calls_app, posts_app, !length_app. lia.
Qed.

Lemma within_impl {A} (Q Q' : io -> Prop) c p (m : IO A) :
  (forall ev, Q ev -> Q' ev) -> within Q c p m -> within Q' c p m.
Proof.
  intros HQ Hm t. destruct (Hm t) as (n & E & Hq & C & P).
  exists n. repeat split; auto. eapply Forall_impl; eauto.
Qed.

(** Peels a program that makes no call and no post. *)
Ltac quiet :=
  repeat first
    [ apply within_ret
    | apply within_raise
    | apply within_io_of
    | apply within_emit; exact I
    | apply within_then; [ | intro ]
    | apply within_except; [ | intro ]
    | apply within_except_Exception; [ | intro ]
    | match goal with
      | |- within _ _ _ (match ?x with _ => _ end) => destruct x
      | |- within _ _ _ (if ?x then _ else _) => destruct x
      end ].

(** ** Printing a tool result *)

Section Dump.

Variable host : Host.

Lemma agent_print_first_json_lines parts :
  within is_line 0 0 (agent.print_first_json host parts).
Proof.
  induction parts as [|p ps IH]; cbn [agent.print_first_json]; [ quiet | ].
  destruct (has_type p "json"); [ quiet | exact IH ].
Qed.

Lemma agent_print_texts_lines parts :
  within is_line 0 0 (agent.print_texts parts).
Proof.
  induction parts as [|p ps IH]; cbn [agent.print_texts]; [ quiet | ].
  apply within_then; [ quiet | intro; exact IH ].
Qed.

Lemma agent_dump_lines r : within is_line 0 0 (agent.dump_tool_result host r).
Proof.
  unfold agent.dump_tool_result.
  destruct (structured r); [ quiet | ].
  destruct (parts_of r) as [|p ps]; [ quiet | ].
  apply within_then; [ apply agent_print_first_json_lines | intros [|] ].
  - quiet.
  - apply agent_print_texts_lines.
Qed.

Lemma client_dump_parts_lines parts :
  forall i, within is_line 0 0 (client.dump_parts host i parts).
Proof.
  induction parts as [|p ps IH]; intro i; cbn [client.dump_parts]; [ quiet | ].
  apply within_then; [ unfold client.dump_part; quiet | intro; apply IH ].
Qed.

Lemma client_dump_lines r : within is_line 0 0 (client.dump_tool_result host r).
Proof.
  assert (Hc : within is_line 0 0 (client.dump_content host r)).
  { unfold client.dump_content.
    destruct (parts_of r); [ quiet | apply client_dump_parts_lines ]. }
  unfold client.dump_tool_result.
  destruct (structured r); [ | exact Hc ].
  apply within_then; [ quiet | intros [|]; [ quiet | exact Hc ] ].
Qed.

(** The first loop of the agent's [dump_tool_result] is a search for
    the first part of type ["json"]. *)
Lemma agent_print_first_json_find parts t :
  agent.print_first_json host parts t
  = match find (fun p => has_type p "json") parts with
    | None => (Ret false, t)
    | Some p =>
        match data_of p with
        | Raise e => (Raise e, t)
        | Ret d =>
            match json_dumps host d with
            | Raise e => (Raise e, t)
            | Ret s => (Ret true, t ++ [Printed (Out s)])%list
            end
        end
    end.
Proof.
  induction parts as [|p ps IH]; cbn [agent.print_first_json find]; [ reflexivity | ].
  destruct (has_type p "json"); [ | exact IH ].
  unfold io_bind, io_of, emit, io_ret.
  destruct (data_of p) as [d|e]; [ | reflexivity ].
  destruct (json_dumps host d); reflexivity.
Qed.

(** The second loop prints the text of the parts of type ["text"]. *)
Lemma agent_print_texts_filter parts t :
  agent.print_texts parts t
  = (Ret tt,
     t ++ map (fun p => Printed (Out (text_of p)))
            (filter (fun p => has_type p "text") parts))%list.
Proof.
  revert t. induction parts as [|p ps IH]; intro t; cbn [agent.print_texts filter map].
  - cbn. now rewrite app_nil_r.
  - unfold io_bind. destruct (has_type p "text"); cbn.
    + rewrite IH, <- app_assoc. reflexivity.
    + apply IH.
Qed.

(** X12.  What the agent's [dump_tool_result] prints: the structured
    content when there is some; otherwise [{}] when there are no parts;
    otherwise the first part of type ["json"] and nothing else; and
    only when no part has that type, the text of every part of type
    ["text"], in order.  An error of [json.dumps], or a ["json"] part
    without [data], is raised with nothing printed. *)
Theorem agent_dump_tool_result_prints (r : tool_result) (t : list io) :
  agent.dump_tool_result host r t
  = match structured r with
    | Some sc =>
        match json_dumps host sc with
        | Ret s => (Ret tt, t ++ [Printed (Out s)])%list
        | Raise e => (Raise e, t)
        end
    | None =>
        match parts_of r with
        | [] => (Ret tt, t ++ [Printed (Out "{}")])%list
        | parts =>
            match find (fun p => has_type p "json") parts with
            | Some p =>
                match data_of p with
                | Raise e => (Raise e, t)
                | Ret d =>
                    match json_dumps host d with
                    | Ret s => (Ret tt, t ++ [Printed (Out s)])%list
                    | Raise e => (Raise e, t)
                    end
                end
            | None =>
                (Ret tt,
                 t ++ map (fun p => Printed (Out (text_of p)))
                        (filter (fun p => has_type p "text") parts))%list
            end
        end
    end.
Proof.
  unfold agent.dump_tool_result.
  destruct (structured r) as [sc|].
  - unfold io_bind, io_of, emit. now destruct (json_dumps host sc).
  - destruct (parts_of r) as [|p ps] eqn:Hparts; [ reflexivity | ].
    unfold io_bind. rewrite agent_print_first_json_find.
    destruct (find (fun p0 => has_type p0 "json") (p :: ps)) as [q|].
    + destruct (data_of q) as [d|e]; [ | reflexivity ].
      destruct (json_dumps host d); reflexivity.
    + apply agent_print_texts_filter.
Qed.

Lemma other_parts (parts : list part) :
  forallb (fun p => negb (has_type p "json") && negb (has_type p "text")) parts = true ->
  find (fun p => has_type p "json") parts = None /\
  filter (fun p => has_type p "text") parts = [].
Proof.
  induction parts as [|p ps IH]; cbn; [ now split | ].
  intros H. apply andb_true_iff in H as [Hp Hps].
  apply andb_true_iff in Hp as [Hj Ht].
  apply negb_true_iff in Hj, Ht. rewrite Hj, Ht. now apply IH.
Qed.

(** X13.  The agent's [dump_tool_result] can print nothing at all: a
    result without structured content whose parts are all of other
    types than ["json"] and ["text"] (an image, say) leaves no line. *)
Theorem agent_dump_tool_result_silent (r : tool_result) (t : list io) :
  structured r = None ->
  parts_of r <> [] ->
  forallb (fun p => negb (has_type p "json") && negb (has_type p "text")) (parts_of r)
  = true ->
  agent.dump_tool_result host r t = (Ret tt, t).
Proof.
  intros Hs Hne Hall.
  unfold agent.dump_tool_result. rewrite Hs.
  destruct (parts_of r) as [|p ps] eqn:Hparts; [ now destruct Hne | ].
  unfold io_bind. rewrite agent_print_first_json_find.
  destruct (other_parts (p :: ps) Hall) as [Hj Ht].
  rewrite Hj, agent_print_texts_filter, Ht. cbn. now rewrite app_nil_r.
Qed.

End Dump.

(** ** The client's print of a result *)

Section ClientDump.

Variable host : Host.

Lemma within_appends {A} Q c p (m : IO A) (t : list io) :
  within Q c p m -> exists new, snd (m t) = (t ++ new)%list.
Proof. intros H. destruct (H t) as (new & E & _). now exists new. Qed.

Lemma client_dump_part_prints (i : Z) (p : part) (t t' : list io) :
  client.dump_part host i p t = (Ret tt, t') ->
  exists s new, t' = (t ++ Printed (Out s) :: new)%list.
Proof.
  unfold client.dump_part.
  destruct (has_type p "json").
  - unfold io_except_Exception, io_bind, io_of, emit.
    destruct (data_of p) as [d|e].
    + destruct (json_dumps host d) as [s|e].
      * intros H. injection H as <-. eexists _, [_]. now rewrite <- app_assoc.
      * destruct (outside_Exception (cls e)); [ discriminate | ].
        intros H. injection H as <-. eexists _, [_]. now rewrite <- app_assoc.
    + destruct (outside_Exception (cls e)); [ discriminate | ].
      intros H. injection H as <-. eexists _, [_]. now rewrite <- app_assoc.
  - destruct (has_type p "text").
    + unfold io_bind, emit. intros H. injection H as <-.
      eexists _, [_]. now rewrite <- app_assoc.
    + unfold emit. intros H. injection H as <-. now eexists _, [].
Qed.

Lemma client_dump_content_prints (r : tool_result) (t t' : list io) :
  client.dump_content host r t = (Ret tt, t') ->
  exists s new, t' = (t ++ Printed (Out s) :: new)%list.
Proof.
  unfold client.dump_content. destruct (parts_of r) as [|p ps].
  - unfold emit. intros H. injection H as <-. now eexists _, [].
  - cbn [client.dump_parts]. unfold io_bind.
    pose proof (client_dump_part_prints 0 p t) as Hp.
    destruct (client.dump_part host 0 p t) as [[[]|e] t1]; [ | discriminate ].
    destruct (Hp t1 eq_refl) as (s & new & ->).
    destruct (within_appends _ _ _ _ (t ++ Printed (Out s) :: new)%list
                (client_dump_parts_lines host ps (0 + 1))) as (new' & E).
    intros H. rewrite H in E. cbn in E. subst t'.
    exists s, (new ++ new')%list. now rewrite <- app_assoc.
Qed.

(** X14.  In the client's [dump_tool_result] an [Exception] of
    [json.dumps], or of reading the [data] of a part that has none,
    does not end the print.  When [json.dumps] cannot print the
    structured content, the parts are printed as for a result without
    structured content.  A ["json"] part that cannot be printed leaves
    its header line and one [(unprintable)] line with the message, and
    the loop goes on with the next part.  And whenever the function
    returns, it has printed at least one line. *)
Theorem client_dump_tool_result_falls_back (r : tool_result) (t : list io) :
  (forall sc e,
     structured r = Some sc ->
     json_dumps host sc = Raise e ->
     outside_Exception (cls e) = false ->
     client.dump_tool_result host r t = client.dump_content host r t) /\
  (forall i p ps e,
     has_type p "json" = true ->
     match data_of p with
     | Ret d => json_dumps host d
     | Raise e' => Raise e'
     end = Raise e ->
     outside_Exception (cls e) = false ->
     client.dump_parts host i (p :: ps) t
     = client.dump_parts host (i + 1) ps
         (List.app t
            [Printed (Out ("[part " ++ str_int i ++ " json]"));
             Printed (Out ("[part " ++ str_int i ++ " json](unprintable): " ++ msg e))])) /\
  (forall t',
     client.dump_tool_result host r t = (Ret tt, t') ->
     exists s new, t' = (t ++ Printed (Out s) :: new)%list).
Proof.
  split; [ | split ].
  - intros sc e Hsc He Hout.
    unfold client.dump_tool_result. rewrite Hsc.
    unfold io_bind at 1, io_except_Exception, io_bind, io_of, io_ret.
    now rewrite He, Hout.
  - intros i p ps e Hp He Hout.
    cbn [client.dump_parts]. unfold io_bind at 1, client.dump_part. rewrite Hp.
    unfold io_except_Exception, io_bind, io_of, emit.
    destruct (data_of p) as [d|e'].
    + rewrite He, Hout. now rewrite <- app_assoc.
    + injection He as ->. rewrite Hout. now rewrite <- app_assoc.
  - intros t'. unfold client.dump_tool_result.
    destruct (structured r) as [sc|]; [ | apply client_dump_content_prints ].
    unfold io_bind at 1, io_except_Exception, io_bind, io_of, emit, io_ret.
    destruct (json_dumps host sc) as [s|e].
    + intros H. injection H as <-. now eexists _, [].
    + destruct (outside_Exception (cls e)); [ discriminate | ].
      apply client_dump_content_prints.
Qed.

End ClientDump.

(** ** One turn of the agent *)

Lemma calls_Forall (P : string -> value -> Prop) (new : list io) :
  Forall (calling P) new ->
  forall tool args, In (tool, args) (calls new) -> P tool args.
Proof.
  induction new as [|[m|u p|tool' args'|] new IH]; cbn; intros H tool args Hin;
    inversion H; subst; auto.
  - destruct Hin.
  - destruct Hin as [Heq|Hin]; [ now injection Heq as <- <- | auto ].
Qed.

Lemma closes_Forall (P : string -> value -> Prop) (new : list io) :
  Forall (calling P) new -> closes new = 0%nat.
Proof.
  induction new as [|[m|u p|tool' args'|] new IH]; cbn; intros H;
    inversion H; subst; auto.
  now exfalso.
Qed.

Lemma line_is_calling (P : string -> value -> Prop) (ev : io) :
  is_line ev -> calling P ev.
Proof. destruct ev as [[]| | |]; cbn; tauto. Qed.

Lemma io_returns_ret {A} (P : A -> Prop) (a : A) : P a -> io_returns P (io_ret a).
Proof. intros H t a' Ha. cbn in Ha. now injection Ha as <-. Qed.

Lemma io_returns_bind {A B} (P : B -> Prop) (m : IO A) (k : A -> IO B) :
  (forall a, io_returns P (k a)) -> io_returns P (io_bind m k).
Proof.
  intros Hk t b. unfold io_bind.
  destruct (m t) as [[a|e] t1]; [ apply Hk | discriminate ].
Qed.

Section AgentTurn.

Variable host : Host.
Variable AGENT_SYSTEM_PROMPT : string.
Variable tool_names : list string.

Let listed : io -> Prop := calling (fun tool _ => In tool tool_names).

Lemma call_llm_within system user : within listed 0 1 (agent.call_llm host system user).
Proof.
  unfold agent.call_llm. cbv zeta.
  apply (within_bind listed 0 0 1 0).
  - apply within_ask; [ exact I | cbn; lia | cbn; lia ].
  - intro data. quiet.
Qed.

Lemma agent_act_within raw : within listed 1 0 (agent.agent_act host tool_names raw).
Proof.
  unfold agent.agent_act.
  apply within_then; [ quiet | ].
  intros [plan|]; [ | quiet ].
  apply within_then; [ quiet | intro tool ].
  apply within_then; [ quiet | intro a ]. cbv zeta.
  destruct tool; try solve [ quiet ].
  destruct (existsb (String.eqb s) tool_names) eqn:E; [ | quiet ].
  apply existsb_exists in E as (n & Hn & Heq). apply String.eqb_eq in Heq. subst n.
  apply within_then; [ quiet | intros _ ].
  apply within_then; [ quiet | intro reason ].
  apply within_then; [ quiet | intros _ ].
  apply (within_bind listed 1 0 0 0).
  - apply within_ask; [ exact Hn | cbn; lia | cbn; lia ].
  - intro result.
    apply within_then; [ quiet | intros _ ].
    apply within_then;
      [ exact (within_impl is_line listed 0 0 _ (line_is_calling _)
                 (agent_dump_lines host result))
      | intros _ ].
    quiet.
Qed.

Lemma agent_turn_within typed :
  within listed 1 1 (agent.agent_turn host AGENT_SYSTEM_PROMPT tool_names typed).
Proof.
  unfold agent.agent_turn.
  apply within_except; [ | intro; quiet ].
  apply within_then; [ quiet | intros _ ].
  apply within_then; [ quiet | intro line ]. cbv zeta.
  destruct (is_quit _); [ quiet | ].
  destruct (String.eqb _ ""); [ quiet | ].
  exact (within_bind listed 0 1 1 0 _ _ (call_llm_within _ _)
           (fun raw => agent_act_within raw)).
Qed.

Lemma agent_turn_no_input_within e :
  within listed 0 0 (agent.agent_turn host AGENT_SYSTEM_PROMPT tool_names (Raise e)).
Proof.
  unfold agent.agent_turn.
  apply within_except; [ | intro; quiet ].
  apply within_then; [ quiet | intros _ ].
  intro t. exists []. cbn. rewrite app_nil_r. repeat split; auto.
Qed.

Lemma agent_loop_within stdin :
  within listed (List.length stdin) (List.length stdin)
    (agent.agent_loop host AGENT_SYSTEM_PROMPT tool_names stdin).
Proof.
  induction stdin as [|typed rest IH]; cbn [agent.agent_loop List.length].
  - apply within_then; [ apply agent_turn_no_input_within | intro; quiet ].
  - apply (within_bind listed 1 (List.length rest) 1 (List.length rest));
      [ apply agent_turn_within | ].
    intros [|]; [ exact IH | quiet ].
Qed.

(** X15.  One line typed costs at most one request to the model and
    at most one tool call, and the tool called is one the server
    listed. *)
Theorem agent_turn_one_listed_call (typed : outcome string) (t : list io) :
  exists new,
    snd (agent.agent_turn host AGENT_SYSTEM_PROMPT tool_names typed t) = (t ++ new)%list /\
    (List.length (posts new) <= 1)%nat /\
    (List.length (calls new) <= 1)%nat /\
    forall tool args, In (tool, args) (calls new) -> In tool tool_names.
Proof.
  destruct (agent_turn_within typed t) as (new & E & HQ & C & P).
  exists new. repeat split; auto.
  exact (calls_Forall _ new HQ).
Qed.

(** X16.  Over a whole session of the agent, whatever the model
    answers: no tool is called that the server did not list, and there
    are no more requests to the model and no more tool calls than
    lines typed. *)
Theorem agent_loop_calls_listed_tools (stdin : list (outcome string)) (t : list io) :
  exists new,
    snd (agent.agent_loop host AGENT_SYSTEM_PROMPT tool_names stdin t) = (t ++ new)%list /\
    (List.length (posts new) <= List.length stdin)%nat /\
    (List.length (calls new) <= List.length stdin)%nat /\
    forall tool args, In (tool, args) (calls new) -> In tool tool_names.
Proof.
  destruct (agent_loop_within stdin t) as (new & E & HQ & C & P).
  exists new. repeat split; auto.
  exact (calls_Forall _ new HQ).
Qed.

(** X17.  A reply of the model that is not JSON, or that is a JSON
    object naming no listed tool (no [tool] key, a tool the server does
    not have, a tool that is not a string), is answered with one
    message; no tool is called and the loop goes on. *)
Theorem agent_act_rejects (raw : string) (t : list io) :
  (exists e, json_loads host raw = Raise e /\ cls e = "JSONDecodeError") \/
  (exists plan,
      json_loads host raw = Ret (VDict plan) /\
      forall name, dict_find "tool" plan = Some (VStr name) -> ~ In name tool_names) ->
  exists m,
    agent.agent_act host tool_names raw t = (Ret Continue, (t ++ [Printed m])%list).
Proof.
  intros [(e & He & Hc)|(plan & Hp & Hn)]; unfold agent.agent_act.
  - exists (Agent_not_json raw).
    unfold io_bind, io_except, io_of, emit, io_ret. rewrite He, Hc. reflexivity.
  - exists (Agent_unknown_tool
              (match dict_find "tool" plan with Some x => x | None => VNone end)
              (VDict plan)).
    unfold io_bind, io_except, io_of, emit, io_ret, get. rewrite Hp.
    destruct (dict_find "tool" plan) as [[| | | |name| | |]|]; try reflexivity.
    destruct (existsb (String.eqb name) tool_names) eqn:E; [ | reflexivity ].
    apply existsb_exists in E as (n & Hin & Heq). apply String.eqb_eq in Heq. subst n.
    now destruct (Hn name eq_refl).
Qed.

(** X18.  A reply that is JSON but not an object (a list, a string, a
    number, [null]) is not answered with a message: [plan.get] raises
    [AttributeError], which nothing in the loop catches, so the agent
    ends there, the lines still to come unread. *)
Theorem agent_act_needs_object (raw : string) (v : value) (t : list io) :
  json_loads host raw = Ret v ->
  (forall d, v <> VDict d) ->
  agent.agent_act host tool_names raw t
  = (Raise (Exn "AttributeError"
              ("'" ++ type_name v ++ "' object has no attribute 'get'")), t).
Proof.
  intros Hv Hd. unfold agent.agent_act, io_bind, io_except, io_of, io_ret, get.
  rewrite Hv. destruct v; try reflexivity. now destruct (Hd d).
Qed.

(** X19.  [exit] and [quit], in any case the host's [lower] maps to
    them, end the session at once: nothing is sent to the model, no
    tool is called, and what is typed after them is not read. *)
Theorem agent_loop_stops_at_exit (line : string) (rest : list (outcome string))
  (t : list io) :
  is_quit (str_lower host (str_strip host line)) = true ->
  agent.agent_loop host AGENT_SYSTEM_PROMPT tool_names (Ret line :: rest) t
  = (Ret tt, (t ++ [Printed Agent_prompt; Printed Agent_bye])%list).
Proof.
  intros Hq. cbn [agent.agent_loop]. unfold agent.agent_turn.
  unfold io_bind, io_except, io_of, emit, io_ret. cbn. rewrite Hq. cbn.
  now rewrite <- app_assoc.
Qed.

Lemma agent_act_continues raw :
  io_returns (fun f => f = Continue) (agent.agent_act host tool_names raw).
Proof.
  unfold agent.agent_act.
  apply io_returns_bind. intros [plan|]; [ | now apply io_returns_ret ].
  apply io_returns_bind. intro tool.
  apply io_returns_bind. intro a. cbv zeta.
  match goal with
  | |- io_returns _ (match ?x with _ => _ end) => destruct x
  end;
    repeat (apply io_returns_bind; intro);
    now apply io_returns_ret.
Qed.

End AgentTurn.

(** ** How a session of the agent ends *)

Section AgentEnd.

Variable host : Host.
Variable AGENT_SYSTEM_PROMPT : string.
Variable tool_names : list string.

Lemma agent_turn_break typed t t' :
  agent.agent_turn host AGENT_SYSTEM_PROMPT tool_names typed t = (Ret Break, t') ->
  exists new m,
    t' = (t ++ new ++ [Printed m])%list /\ (m = Agent_bye \/ m = Agent_bye_interrupted).
Proof.
  unfold agent.agent_turn, io_except.
  unfold io_bind at 1, emit. unfold io_bind at 1, io_of.
  destruct typed as [line|e]; cbv zeta.
  - destruct (is_quit _).
    + unfold io_bind, emit, io_ret. cbn. intros H. injection H as <-.
      exists [Printed Agent_prompt], Agent_bye. split; [ | now left ].
      now rewrite <- app_assoc.
    + destruct (String.eqb _ ""); [ cbn; discriminate | ].
      pose proof (within_bind _ 0 1 1 0 _ _
                    (call_llm_within host tool_names AGENT_SYSTEM_PROMPT
                       (agent.prompt_user tool_names (str_strip host line)))
                    (fun raw => agent_act_within host tool_names raw)
                    (t ++ [Printed Agent_prompt])%list) as (new & E & _).
      pose proof (io_returns_bind _
                    (agent.call_llm host AGENT_SYSTEM_PROMPT
                       (agent.prompt_user tool_names (str_strip host line)))
                    _ (fun raw => agent_act_continues host tool_names raw)
                    (t ++ [Printed Agent_prompt])%list) as Hc.
      destruct (io_bind _ _ (t ++ [Printed Agent_prompt])%list) as [[f|e] t1];
        cbn in E, Hc.
      * intros H. injection H as -> <-. now specialize (Hc Break eq_refl).
      * destruct (String.eqb (cls e) "KeyboardInterrupt"); [ | discriminate ].
        unfold io_bind, emit, io_ret. cbn. intros H. injection H as <-. subst t1.
        exists (Printed Agent_prompt :: new), Agent_bye_interrupted.
        split; [ | now right ]. now rewrite <- !app_assoc.
  - destruct (String.eqb (cls e) "KeyboardInterrupt"); [ | discriminate ].
    unfold io_bind, emit, io_ret. cbn. intros H. injection H as <-.
    exists [Printed Agent_prompt], Agent_bye_interrupted.
    split; [ | now right ]. now rewrite <- app_assoc.
Qed.

(** X20.  The agent's loop ends without an error only by saying
    goodbye: when it returns, the last thing printed is the farewell of
    [exit]/[quit] or the farewell of an interrupt.  (A dropped
    connection to the model, a reply that is no JSON object, a failing
    tool call or the end of the input all end it with an exception.) *)
Theorem agent_loop_returns_after_bye (stdin : list (outcome string)) (t : list io) :
  fst (agent.agent_loop host AGENT_SYSTEM_PROMPT tool_names stdin t) = Ret tt ->
  exists new m,
    snd (agent.agent_loop host AGENT_SYSTEM_PROMPT tool_names stdin t)
    = (t ++ new ++ [Printed m])%list /\
    (m = Agent_bye \/ m = Agent_bye_interrupted).
Proof.
  revert t. induction stdin as [|typed rest IH]; intro t; cbn [agent.agent_loop].
  - unfold io_bind, agent.agent_turn, io_except, io_of, emit. cbn. discriminate.
  - unfold io_bind at 1 2.
    destruct (agent_turn_within host AGENT_SYSTEM_PROMPT tool_names typed t)
      as (new1 & E1 & _).
    destruct (agent.agent_turn host AGENT_SYSTEM_PROMPT tool_names typed t)
      as [[[|]|e] t1] eqn:E; cbn in E1.
    + intros H. destruct (IH t1 H) as (new & m & E2 & Hm).
      exists (new1 ++ new)%list, m. split; [ | exact Hm ].
      rewrite E2. subst t1. now rewrite <- !app_assoc.
    + intros _. cbn. exact (agent_turn_break typed t t1 E).
    + discriminate.
Qed.

(** X21.  A reply of the model with no [message], or whose [message]
    has no [content], is not an error: [call_llm] returns the strip of
    the empty text. *)
Theorem call_llm_without_content (system user : string) (d : list (value * value))
  (t : list io) :
  (forall url payload, http_post host url payload = Ret (VDict d)) ->
  dict_find "message" d = None \/
  (exists m, dict_find "message" d = Some (VDict m) /\ dict_find "content" m = None) ->
  fst (agent.call_llm host system user t) = Ret (str_strip host "").
Proof.
  intros Hpost Hd. unfold agent.call_llm, io_bind, ask, io_of, io_ret, get.
  cbv zeta. rewrite Hpost.
  destruct Hd as [Hm|(m & Hm & Hc)]; rewrite Hm; cbn; [ reflexivity | ].
  now rewrite Hc.
Qed.

End AgentEnd.

(** ** One turn of the client *)

Lemma split_space_Some (s a b : string) :
  split_space s = Some (a, b) -> s = (a ++ " " ++ b)%string /\ has_space a = false.
Proof.
  revert a. induction s as [|c s IH]; intro a; cbn; [ discriminate | ].
  destruct (Ascii.eqb_spec c " ") as [->|Hc].
  - intros H. injection H as <- <-. now split.
  - destruct (split_space s) as [[a' b']|]; [ | discriminate ].
    intros H. injection H as <- <-.
    destruct (IH a' eq_refl) as [-> Ha]. cbn. split; [ reflexivity | ].
    rewrite Ha. now destruct (Ascii.eqb_spec c " ").
Qed.

Lemma split_space_None (s : string) : split_space s = None -> has_space s = false.
Proof.
  induction s as [|c s IH]; cbn; [ reflexivity | ].
  destruct (Ascii.eqb c " "); [ discriminate | ].
  destruct (split_space s) as [[a b]|]; [ discriminate | ].
  intros _. now apply IH.
Qed.

Section ClientTurn.

Variable host : Host.

Let any_call : io -> Prop := calling (fun _ _ => True).

Lemma call_and_dump_within tool args :
  within any_call 1 0 (client.call_and_dump host tool args).
Proof.
  unfold client.call_and_dump.
  apply within_then; [ quiet | intros _ ].
  apply (within_bind any_call 1 0 0 0).
  - apply within_ask; [ exact I | cbn; lia | cbn; lia ].
  - intro res.
    apply within_then;
      [ exact (within_impl is_line any_call 0 0 _ (line_is_calling _)
                 (client_dump_lines host res))
      | intros _ ].
    quiet.
Qed.

Lemma client_turn_within typed : within any_call 1 0 (client.client_turn host typed).
Proof.
  unfold client.client_turn.
  apply within_then; [ quiet | intros _ ].
  apply within_then; [ quiet | intro line ]. cbv zeta.
  destruct (String.eqb _ ""); [ quiet | ].
  destruct (is_quit _); [ quiet | ].
  destruct (split_space _) as [[tool json_part]|]; [ | apply call_and_dump_within ].
  apply within_then; [ quiet | ].
  intros [args|]; [ apply call_and_dump_within | quiet ].
Qed.

Lemma client_turn_no_input_within e :
  within any_call 0 0 (client.client_turn host (Raise e)).
Proof.
  unfold client.client_turn.
  apply within_then; [ quiet | intros _ ].
  intro t. exists []. cbn. rewrite app_nil_r. repeat split; auto.
Qed.

Lemma client_loop_within stdin :
  within any_call (List.length stdin) 0 (client.client_loop host stdin).
Proof.
  induction stdin as [|typed rest IH]; cbn [client.client_loop List.length].
  - apply within_then; [ apply client_turn_no_input_within | intro; quiet ].
  - apply (within_bind any_call 1 (List.length rest) 0 0);
      [ apply client_turn_within | ].
    intros [|]; [ exact IH | quiet ].
Qed.

Lemma call_and_dump_calls tool args t :
  exists new,
    snd (client.call_and_dump host tool args t) = (t ++ new)%list /\
    calls new = [(tool, args)] /\ posts new = [].
Proof.
  unfold client.call_and_dump.
  unfold io_bind at 1, emit. unfold io_bind at 1, ask.
  destruct (call_tool host tool args) as [res|e].
  - unfold io_bind at 1.
    destruct (client_dump_lines host res
                ((t ++ [Printed (Client_calling tool args)]) ++ [Called tool args])%list)
      as (new & E & _ & C & P).
    destruct (client.dump_tool_result host res _) as [[u|e] t1]; cbn in E; subst t1;
      (exists (Printed (Client_calling tool args) :: Called tool args :: new);
       split; [ cbn; now rewrite <- !app_assoc | ];
       cbn; destruct (calls new); destruct (posts new); cbn in C, P; try lia; now split).
  - exists [Printed (Client_calling tool args); Called tool args].
    cbn. split; [ now rewrite <- app_assoc | now split ].
Qed.

(** X22.  One line typed into the client makes at most one tool call
    and never a request to the model.  The tool called is the line up
    to its first space (so it has no space in it), with the rest of the
    line parsed as JSON for arguments, or the whole line with [{}] when
    the line has no space.  The name is not checked against the tools
    the server listed. *)
Theorem client_turn_one_call (typed : outcome string) (t : list io) :
  exists new,
    snd (client.client_turn host typed t) = (t ++ new)%list /\
    posts new = [] /\
    (calls new = [] \/
     exists line tool args,
       typed = Ret line /\
       calls new = [(tool, args)] /\
       has_space tool = false /\
       ((str_strip host line = tool /\ args = VDict []) \/
        exists json_part,
          str_strip host line = (tool ++ " " ++ json_part)%string /\
          json_loads host json_part = Ret args)).
Proof.
  unfold client.client_turn.
  unfold io_bind at 1, emit. unfold io_bind at 1, io_of.
  destruct typed as [line|e];
    [ | exists [Printed Client_prompt]; cbn; repeat split; now left ].
  cbv zeta.
  destruct (String.eqb _ "");
    [ exists [Printed Client_prompt]; cbn; repeat split; now left | ].
  destruct (is_quit _).
  { exists [Printed Client_prompt; Printed Client_exiting].
    unfold io_bind, emit, io_ret. cbn. rewrite <- app_assoc.
    repeat split. now left. }
  destruct (split_space (str_strip host line)) as [[tool json_part]|] eqn:Hs.
  - apply split_space_Some in Hs as [Hline Htool].
    unfold io_bind at 1, io_except, io_bind, io_of, emit, io_ret.
    destruct (json_loads host json_part) as [args|e] eqn:Hj.
    + destruct (call_and_dump_calls tool args (t ++ [Printed Client_prompt])%list)
        as (new & E & C & P).
      exists (Printed Client_prompt :: new). rewrite E.
      split; [ now rewrite <- app_assoc | ]. split; [ exact P | ].
      right. exists line, tool, args. repeat split; auto.
      right. now exists json_part.
    + destruct (String.eqb (cls e) "JSONDecodeError").
      * exists [Printed Client_prompt; Printed Client_invalid_json].
        cbn. rewrite <- app_assoc. repeat split. now left.
      * exists [Printed Client_prompt]. cbn. repeat split. now left.
  - apply split_space_None in Hs.
    destruct (call_and_dump_calls (str_strip host line) (VDict [])
                (t ++ [Printed Client_prompt])%list) as (new & E & C & P).
    exists (Printed Client_prompt :: new). rewrite E.
    split; [ now rewrite <- app_assoc | ]. split; [ exact P | ].
    right. exists line, (str_strip host line), (VDict []). repeat split; auto.
Qed.

(** X23.  However a session of the client ends ([exit], an interrupt,
    the end of the input, an error from a tool call), [session.close()]
    is called exactly once, and only then. *)
Theorem client_session_closes_once (stdin : list (outcome string)) (t : list io) :
  closes (snd (client.client_session host stdin t)) = S (closes t).
Proof.
  unfold client.client_session, io_finally.
  assert (Hbody : exists new,
             snd (io_except (client.client_loop host stdin) "KeyboardInterrupt"
                    (fun _ => emit Client_exiting_interrupted) t) = (t ++ new)%list /\
             closes new = 0%nat).
  { assert (Hw : within any_call (List.length stdin) 0
                   (io_except (client.client_loop host stdin) "KeyboardInterrupt"
                      (fun _ => emit Client_exiting_interrupted)))
      by (apply within_except; [ apply client_loop_within | intro; quiet ]).
    destruct (Hw t) as (new & E & HQ & _).
    exists new. split; [ exact E | exact (closes_Forall _ new HQ) ]. }
  destruct Hbody as (new & E & Hc).
  destruct (io_except _ _ _ t) as [r t1]. cbn in E. subst t1.
  unfold io_except, ask.
  destruct (session_close host) as [u|e]; cbn;
    [ | destruct (String.eqb (cls e) "AttributeError"); cbn ];
    rewrite !closes_app, Hc; cbn; lia.
Qed.

End ClientTurn.

(** ** The sample terminal session *)

(** X14 at the desk: the period is refused by [json.dumps] and the
    text part is printed instead; a ["json"] part without [data] leaves
    two lines. *)
Lemma client_dump_tool_result_falls_back_witness :
  client.dump_tool_result Desk.host Desk.period_result []
  = client.dump_content Desk.host Desk.period_result [] /\
  client.dump_parts Desk.host 0 [Desk.json_without_data] []
  = client.dump_parts Desk.host (0 + 1) []
      [Printed (Out "[part 0 json]");
       Printed (Out "[part 0 json](unprintable): 'EmbeddedResource' object has no attribute 'data'")]
  /\
  exists s new,
    [Printed (Out "[part 0 text]"); Printed (Out "2021-01")]
    = ([] ++ Printed (Out s) :: new)%list.
Proof.
  destruct (client_dump_tool_result_falls_back Desk.host Desk.period_result [])
    as (H1 & H2 & H3).
  split; [ | split ].
  - exact (H1 (VPeriod "M" 10) _ eq_refl eq_refl eq_refl).
  - exact (H2 0 Desk.json_without_data [] _ eq_refl eq_refl eq_refl).
  - exact (H3 _ eq_refl).
Defined.

(** X13 on a result that is one image. *)
Lemma agent_dump_tool_result_silent_witness :
  agent.dump_tool_result Desk.host Desk.image_result [] = (Ret tt, []).
Proof.
  apply (agent_dump_tool_result_silent Desk.host Desk.image_result []);
    [ reflexivity | discriminate | reflexivity ].
Defined.

(** X17 on a reply that names a tool the server does not have. *)
Lemma agent_act_rejects_witness :
  exists m,
    agent.agent_act Desk.host Desk.tool_names Desk.plan_rm []
    = (Ret Continue, [Printed m]).
Proof.
  apply (agent_act_rejects Desk.host Desk.tool_names Desk.plan_rm []).
  right. exists [(VStr "tool", VStr "rm")]. split; [ reflexivity | ].
  intros name H. injection H as <-. cbn. intuition discriminate.
Defined.

(** X18 on the reply [[]]. *)
Lemma agent_act_needs_object_witness :
  agent.agent_act Desk.host Desk.tool_names "[]" []
  = (Raise (Exn "AttributeError" "'list' object has no attribute 'get'"), []).
Proof.
  apply (agent_act_needs_object Desk.host Desk.tool_names "[]" (VList []) []);
    [ reflexivity | discriminate ].
Defined.

(** X19 on [EXIT] followed by a request. *)
Lemma agent_loop_stops_at_exit_witness :
  agent.agent_loop Desk.host "be brief" Desk.tool_names
    [Ret "EXIT"; Ret "show the first rows"] []
  = (Ret tt, [Printed Agent_prompt; Printed Agent_bye]).
Proof.
  apply (agent_loop_stops_at_exit Desk.host "be brief" Desk.tool_names "EXIT"
           [Ret "show the first rows"] []).
  reflexivity.
Defined.

(** X20 on a request followed by an interrupt at the prompt. *)
Lemma agent_loop_returns_after_bye_witness :
  exists new m,
    snd (agent.agent_loop Desk.host "be brief" Desk.tool_names
           [Ret "show the first rows"; Raise (Exn "KeyboardInterrupt" "")] [])
    = (new ++ [Printed m])%list /\
    (m = Agent_bye \/ m = Agent_bye_interrupted).
Proof.
  apply (agent_loop_returns_after_bye Desk.host "be brief" Desk.tool_names
           [Ret "show the first rows"; Raise (Exn "KeyboardInterrupt" "")] []).
  reflexivity.
Defined.

(** X21 on a reply that is an empty object. *)
Lemma call_llm_without_content_witness :
  fst (agent.call_llm (Desk.host_replying (VDict [])) "be brief" "hello" []) = Ret "".
Proof.
  apply (call_llm_without_content (Desk.host_replying (VDict [])) "be brief" "hello" [] []).
  - reflexivity.
  - now left.
Defined.

(** The sample request, run: one post, one call of [tool_head]. *)
Example agent_sample_turn :
  calls (snd (agent.agent_turn Desk.host "be brief" Desk.tool_names
                (Ret "show the first rows") []))
  = [("tool_head", VDict [])].
Proof. reflexivity. Qed.

(** ** What the tools let out *)

Section LetOut.

Variable env : Env.

(** X24.  [set_schema], [get_schema], [summary], [top_categories],
    [correlations], [scatter_pairs], [outliers], [plot_hist], [plot_xy]
    and [load_data] with a path return a result in every world and for
    every argument, whatever pandas and plotly raise.  [load_data]
    without a path asks whether [dataset.csv] exists before its [try]
    block: it lets out what that test raises, and returns a result
    otherwise. *)
Theorem handled_tools_always_answer (c : tool_call) (w : World) :
  match c with
  | Head _ | Missing _ | Time_trend _ _ => True
  | Load_data None =>
      match path_exists env "dataset.csv" with
      | Ret _ => exists r, fst (run env c w) = Ret r
      | Raise e => fst (run env c w) = Raise e
      end
  | _ => exists r, fst (run env c w) = Ret r
  end.
Proof.
  pose proof (guarded_tools_never_raise env c) as H.
  destruct c as [[p|]| | | | | | | | | | | |]; trivial; try exact (H w).
  unfold run. rewrite load_data_None_run.
  destruct (path_exists env "dataset.csv") as [[|]|e]; [ | now eexists | reflexivity ].
  exact (guarded_tools_never_raise env (Load_data (Some "dataset.csv")) _).
Qed.

(** X25.  The one exception [time_trend] lets out is the [KeyError] of
    a column the table does not have; every other failure (periods
    that cannot be formed, values that cannot be converted, a chart
    that fails) comes back as a result. *)
Theorem time_trend_raises_only_KeyError (column freq : string) (w : World) (e : exn) :
  fst (tools_core.time_trend env column freq w) = Raise e ->
  e = KeyError env column /\
  exists d, df (state w) = Some d /\ find_column column (columns d) = None.
Proof.
  unfold tools_core.time_trend. rewrite read_STATE_bind.
  destruct (df (state w)) as [d|]; [ | discriminate ].
  unfold bind at 1, of_outcome, getitem.
  destruct (find_column column (columns d)) as [s|] eqn:Hc.
  - intros H. exfalso. revert H.
    match goal with
    | |- fst (?m w) = Raise e -> False =>
        assert (Hm : never_raises m)
          by (unfold tools_core.to_numeric_int; caught)
    end.
    destruct (Hm w) as [r Hr]. intros H.
    discriminate (eq_trans (eq_sym Hr) H).
  - cbn. intros H. injection H as <-. split; [ reflexivity | now exists d ].
Qed.

End LetOut.

(** X25 on the sample session. *)
Lemma time_trend_raises_only_KeyError_witness :
  Exn "KeyError" "'price'" = KeyError Sample.desktop "price" /\
  exists d, df (state Sample.loaded) = Some d /\ find_column "price" (columns d) = None.
Proof.
  apply (time_trend_raises_only_KeyError Sample.desktop "price" "M" Sample.loaded).
  reflexivity.
Defined.
